(** * MediaProperties (plugin-meetings, src/media/properties.ts)

    A shallow embedding of the [MediaProperties] class: the holder of the
    local and remote stream handles, of the media direction and of the
    media connection of one meeting, with its bounded wait for the
    connection and its classification of the connection type from the
    stats reports. *)

From Stdlib Require Import ZArith Lia List Ascii String.
From stdpp Require Import gmap strings list fin_maps.

Local Open Scope string_scope.
Local Open Scope Z_scope.

(** ** JavaScript values

    The fields of the class are typed [any] or hold references to objects of
    the media libraries.  Objects are handles ([VObj]); numbers are integers
    here ([NaN] and fractions are not needed by this class). *)

Inductive JsVal : Type :=
| VUndefined
| VNull
| VBool (b : bool)
| VNum (n : Z)
| VStr (s : string)
| VObj (h : nat).

#[global] Instance JsVal_eq_dec : EqDecision JsVal.
Proof. solve_decision. Defined.

(** ToBoolean *)
Definition truthy (v : JsVal) : bool :=
  match v with
  | VUndefined | VNull => false
  | VBool b => b
  | VNum n => negb (n =? 0)
  | VStr s => negb (String.eqb s "")
  | VObj _ => true
  end.

(** [a || b] *)
Definition js_or (a b : JsVal) : JsVal := if truthy a then a else b.

(** ** The data model *)

Record MediaDirection : Type := {
  sendAudio : bool;
  sendVideo : bool;
  sendShare : bool;
  receiveAudio : bool;
  receiveVideo : bool;
  receiveShare : bool;
}.

#[global] Instance MediaDirection_eq_dec : EqDecision MediaDirection.
Proof. solve_decision. Defined.

(** The instance.  [remoteShareStream] is not declared by the class: it is
    the property that [unsetRemoteShareStream] assigns; a property that was
    never assigned reads as [undefined]. *)
Record MediaProperties : Type := {
  audioStream : JsVal;
  mediaDirection : MediaDirection;
  mediaSettings : gmap string JsVal;
  webrtcMediaConnection : JsVal;
  remoteAudioStream : JsVal;
  remoteQualityLevel : JsVal;
  remoteShare : JsVal;
  remoteVideoStream : JsVal;
  shareVideoStream : JsVal;
  shareAudioStream : JsVal;
  videoDeviceId : JsVal;
  videoStream : JsVal;
  namespace : JsVal;
  remoteShareStream : JsVal;
}.

(** The attributes of an instance, and what one of them holds. *)
Inductive Attr : Type :=
| A_audioStream | A_mediaDirection | A_mediaSettings | A_webrtcMediaConnection
| A_remoteAudioStream | A_remoteQualityLevel | A_remoteShare
| A_remoteVideoStream | A_shareVideoStream | A_shareAudioStream
| A_videoDeviceId | A_videoStream | A_namespace | A_remoteShareStream.

#[global] Instance Attr_eq_dec : EqDecision Attr.
Proof. solve_decision. Defined.

Inductive AttrVal : Type :=
| AJs (v : JsVal)
| ADirection (d : MediaDirection)
| ASettings (m : gmap string JsVal).

Definition read (a : Attr) (this : MediaProperties) : AttrVal :=
  match a with
  | A_audioStream => AJs (audioStream this)
  | A_mediaDirection => ADirection (mediaDirection this)
  | A_mediaSettings => ASettings (mediaSettings this)
  | A_webrtcMediaConnection => AJs (webrtcMediaConnection this)
  | A_remoteAudioStream => AJs (remoteAudioStream this)
  | A_remoteQualityLevel => AJs (remoteQualityLevel this)
  | A_remoteShare => AJs (remoteShare this)
  | A_remoteVideoStream => AJs (remoteVideoStream this)
  | A_shareVideoStream => AJs (shareVideoStream this)
  | A_shareAudioStream => AJs (shareAudioStream this)
  | A_videoDeviceId => AJs (videoDeviceId this)
  | A_videoStream => AJs (videoStream this)
  | A_namespace => AJs (namespace this)
  | A_remoteShareStream => AJs (remoteShareStream this)
  end.

(** Assignments [this.f = v], one per field that the class assigns. *)
Definition assign_audioStream (v : JsVal) (o : MediaProperties) : MediaProperties :=
  {| audioStream := v; mediaDirection := mediaDirection o;
     mediaSettings := mediaSettings o; webrtcMediaConnection := webrtcMediaConnection o;
     remoteAudioStream := remoteAudioStream o; remoteQualityLevel := remoteQualityLevel o;
     remoteShare := remoteShare o; remoteVideoStream := remoteVideoStream o;
     shareVideoStream := shareVideoStream o; shareAudioStream := shareAudioStream o;
     videoDeviceId := videoDeviceId o; videoStream := videoStream o;
     namespace := namespace o; remoteShareStream := remoteShareStream o |}.

Definition assign_mediaDirection (v : MediaDirection) (o : MediaProperties) : MediaProperties :=
  {| audioStream := audioStream o; mediaDirection := v;
     mediaSettings := mediaSettings o; webrtcMediaConnection := webrtcMediaConnection o;
     remoteAudioStream := remoteAudioStream o; remoteQualityLevel := remoteQualityLevel o;
     remoteShare := remoteShare o; remoteVideoStream := remoteVideoStream o;
     shareVideoStream := shareVideoStream o; shareAudioStream := shareAudioStream o;
     videoDeviceId := videoDeviceId o; videoStream := videoStream o;
     namespace := namespace o; remoteShareStream := remoteShareStream o |}.


Definition assign_webrtcMediaConnection (v : JsVal) (o : MediaProperties) : MediaProperties :=
  {| audioStream := audioStream o; mediaDirection := mediaDirection o;
     mediaSettings := mediaSettings o; webrtcMediaConnection := v;
     remoteAudioStream := remoteAudioStream o; remoteQualityLevel := remoteQualityLevel o;
     remoteShare := remoteShare o; remoteVideoStream := remoteVideoStream o;
     shareVideoStream := shareVideoStream o; shareAudioStream := shareAudioStream o;
     videoDeviceId := videoDeviceId o; videoStream := videoStream o;
     namespace := namespace o; remoteShareStream := remoteShareStream o |}.

Definition assign_remoteAudioStream (v : JsVal) (o : MediaProperties) : MediaProperties :=
  {| audioStream := audioStream o; mediaDirection := mediaDirection o;
     mediaSettings := mediaSettings o; webrtcMediaConnection := webrtcMediaConnection o;
     remoteAudioStream := v; remoteQualityLevel := remoteQualityLevel o;
     remoteShare := remoteShare o; remoteVideoStream := remoteVideoStream o;
     shareVideoStream := shareVideoStream o; shareAudioStream := shareAudioStream o;
     videoDeviceId := videoDeviceId o; videoStream := videoStream o;
     namespace := namespace o; remoteShareStream := remoteShareStream o |}.

Definition assign_remoteQualityLevel (v : JsVal) (o : MediaProperties) : MediaProperties :=
  {| audioStream := audioStream o; mediaDirection := mediaDirection o;
     mediaSettings := mediaSettings o; webrtcMediaConnection := webrtcMediaConnection o;
     remoteAudioStream := remoteAudioStream o; remoteQualityLevel := v;
     remoteShare := remoteShare o; remoteVideoStream := remoteVideoStream o;
     shareVideoStream := shareVideoStream o; shareAudioStream := shareAudioStream o;
     videoDeviceId := videoDeviceId o; videoStream := videoStream o;
     namespace := namespace o; remoteShareStream := remoteShareStream o |}.

Definition assign_remoteShare (v : JsVal) (o : MediaProperties) : MediaProperties :=
  {| audioStream := audioStream o; mediaDirection := mediaDirection o;
     mediaSettings := mediaSettings o; webrtcMediaConnection := webrtcMediaConnection o;
     remoteAudioStream := remoteAudioStream o; remoteQualityLevel := remoteQualityLevel o;
     remoteShare := v; remoteVideoStream := remoteVideoStream o;
     shareVideoStream := shareVideoStream o; shareAudioStream := shareAudioStream o;
     videoDeviceId := videoDeviceId o; videoStream := videoStream o;
     namespace := namespace o; remoteShareStream := remoteShareStream o |}.

Definition assign_remoteVideoStream (v : JsVal) (o : MediaProperties) : MediaProperties :=
  {| audioStream := audioStream o; mediaDirection := mediaDirection o;
     mediaSettings := mediaSettings o; webrtcMediaConnection := webrtcMediaConnection o;
     remoteAudioStream := remoteAudioStream o; remoteQualityLevel := remoteQualityLevel o;
     remoteShare := remoteShare o; remoteVideoStream := v;
     shareVideoStream := shareVideoStream o; shareAudioStream := shareAudioStream o;
     videoDeviceId := videoDeviceId o; videoStream := videoStream o;
     namespace := namespace o; remoteShareStream := remoteShareStream o |}.

Definition assign_shareVideoStream (v : JsVal) (o : MediaProperties) : MediaProperties :=
  {| audioStream := audioStream o; mediaDirection := mediaDirection o;
     mediaSettings := mediaSettings o; webrtcMediaConnection := webrtcMediaConnection o;
     remoteAudioStream := remoteAudioStream o; remoteQualityLevel := remoteQualityLevel o;
     remoteShare := remoteShare o; remoteVideoStream := remoteVideoStream o;
     shareVideoStream := v; shareAudioStream := shareAudioStream o;
     videoDeviceId := videoDeviceId o; videoStream := videoStream o;
     namespace := namespace o; remoteShareStream := remoteShareStream o |}.

Definition assign_shareAudioStream (v : JsVal) (o : MediaProperties) : MediaProperties :=
  {| audioStream := audioStream o; mediaDirection := mediaDirection o;
     mediaSettings := mediaSettings o; webrtcMediaConnection := webrtcMediaConnection o;
     remoteAudioStream := remoteAudioStream o; remoteQualityLevel := remoteQualityLevel o;
     remoteShare := remoteShare o; remoteVideoStream := remoteVideoStream o;
     shareVideoStream := shareVideoStream o; shareAudioStream := v;
     videoDeviceId := videoDeviceId o; videoStream := videoStream o;
     namespace := namespace o; remoteShareStream := remoteShareStream o |}.

Definition assign_videoDeviceId (v : JsVal) (o : MediaProperties) : MediaProperties :=
  {| audioStream := audioStream o; mediaDirection := mediaDirection o;
     mediaSettings := mediaSettings o; webrtcMediaConnection := webrtcMediaConnection o;
     remoteAudioStream := remoteAudioStream o; remoteQualityLevel := remoteQualityLevel o;
     remoteShare := remoteShare o; remoteVideoStream := remoteVideoStream o;
     shareVideoStream := shareVideoStream o; shareAudioStream := shareAudioStream o;
     videoDeviceId := v; videoStream := videoStream o;
     namespace := namespace o; remoteShareStream := remoteShareStream o |}.

Definition assign_videoStream (v : JsVal) (o : MediaProperties) : MediaProperties :=
  {| audioStream := audioStream o; mediaDirection := mediaDirection o;
     mediaSettings := mediaSettings o; webrtcMediaConnection := webrtcMediaConnection o;
     remoteAudioStream := remoteAudioStream o; remoteQualityLevel := remoteQualityLevel o;
     remoteShare := remoteShare o; remoteVideoStream := remoteVideoStream o;
     shareVideoStream := shareVideoStream o; shareAudioStream := shareAudioStream o;
     videoDeviceId := videoDeviceId o; videoStream := v;
     namespace := namespace o; remoteShareStream := remoteShareStream o |}.

Definition assign_remoteShareStream (v : JsVal) (o : MediaProperties) : MediaProperties :=
  {| audioStream := audioStream o; mediaDirection := mediaDirection o;
     mediaSettings := mediaSettings o; webrtcMediaConnection := webrtcMediaConnection o;
     remoteAudioStream := remoteAudioStream o; remoteQualityLevel := remoteQualityLevel o;
     remoteShare := remoteShare o; remoteVideoStream := remoteVideoStream o;
     shareVideoStream := shareVideoStream o; shareAudioStream := shareAudioStream o;
     videoDeviceId := videoDeviceId o; videoStream := videoStream o;
     namespace := namespace o; remoteShareStream := v |}.

(** ** The methods that read and write the fields *)

(** [getVideoDeviceId]: [this.videoDeviceId || null] *)
Definition getVideoDeviceId (this : MediaProperties) : JsVal :=
  js_or (videoDeviceId this) VNull.

Definition setMediaDirection (mediaDirection : MediaDirection)
  (this : MediaProperties) : MediaProperties :=
  assign_mediaDirection mediaDirection this.


Definition setMediaPeerConnection (mediaPeerConnection : JsVal)
  (this : MediaProperties) : MediaProperties :=
  assign_webrtcMediaConnection mediaPeerConnection this.

Definition setLocalVideoStream (videoStream : JsVal)
  (this : MediaProperties) : MediaProperties :=
  assign_videoStream videoStream this.

Definition setLocalAudioStream (audioStream : JsVal)
  (this : MediaProperties) : MediaProperties :=
  assign_audioStream audioStream this.

Definition setLocalShareVideoStream (shareVideoStream : JsVal)
  (this : MediaProperties) : MediaProperties :=
  assign_shareVideoStream shareVideoStream this.

Definition setLocalShareAudioStream (shareAudioStream : JsVal)
  (this : MediaProperties) : MediaProperties :=
  assign_shareAudioStream shareAudioStream this.

Definition setRemoteQualityLevel (remoteQualityLevel : JsVal)
  (this : MediaProperties) : MediaProperties :=
  assign_remoteQualityLevel remoteQualityLevel this.

Definition setRemoteShare (remoteShare : JsVal)
  (this : MediaProperties) : MediaProperties :=
  assign_remoteShare remoteShare this.

Definition setRemoteAudioStream (remoteAudioStream : JsVal)
  (this : MediaProperties) : MediaProperties :=
  assign_remoteAudioStream remoteAudioStream this.

Definition setRemoteVideoStream (remoteVideoStream : JsVal)
  (this : MediaProperties) : MediaProperties :=
  assign_remoteVideoStream remoteVideoStream this.

Definition setVideoDeviceId (deviceId : JsVal)
  (this : MediaProperties) : MediaProperties :=
  assign_videoDeviceId deviceId this.

Definition unsetPeerConnection (this : MediaProperties) : MediaProperties :=
  assign_webrtcMediaConnection VNull this.

Definition unsetRemoteMedia (this : MediaProperties) : MediaProperties :=
  assign_remoteVideoStream VNull (assign_remoteAudioStream VNull this).

Definition unsetRemoteShareStream (this : MediaProperties) : MediaProperties :=
  assign_remoteShareStream VNull this.

Definition unsetRemoteStreams (this : MediaProperties) : MediaProperties :=
  unsetRemoteShareStream (unsetRemoteMedia this).

(** [!!(this.shareAudioStream || this.shareVideoStream)] *)
Definition hasLocalShareStream (this : MediaProperties) : bool :=
  truthy (js_or (shareAudioStream this) (shareVideoStream this)).

(** A call of one of the twelve setters and unsetters of lines 75 to 140
    ([setMediaSettings], which updates the settings object in place, is not
    one of them). *)
Inductive SetterCall : Type :=
| Call_setMediaDirection (d : MediaDirection)
| Call_setMediaPeerConnection (v : JsVal)
| Call_setLocalVideoStream (v : JsVal)
| Call_setLocalAudioStream (v : JsVal)
| Call_setLocalShareVideoStream (v : JsVal)
| Call_setLocalShareAudioStream (v : JsVal)
| Call_setRemoteQualityLevel (v : JsVal)
| Call_setRemoteShare (v : JsVal)
| Call_setRemoteAudioStream (v : JsVal)
| Call_setRemoteVideoStream (v : JsVal)
| Call_setVideoDeviceId (v : JsVal)
| Call_unsetPeerConnection.

Definition run_setter (c : SetterCall) : MediaProperties -> MediaProperties :=
  match c with
  | Call_setMediaDirection d => setMediaDirection d
  | Call_setMediaPeerConnection v => setMediaPeerConnection v
  | Call_setLocalVideoStream v => setLocalVideoStream v
  | Call_setLocalAudioStream v => setLocalAudioStream v
  | Call_setLocalShareVideoStream v => setLocalShareVideoStream v
  | Call_setLocalShareAudioStream v => setLocalShareAudioStream v
  | Call_setRemoteQualityLevel v => setRemoteQualityLevel v
  | Call_setRemoteShare v => setRemoteShare v
  | Call_setRemoteAudioStream v => setRemoteAudioStream v
  | Call_setRemoteVideoStream v => setRemoteVideoStream v
  | Call_setVideoDeviceId v => setVideoDeviceId v
  | Call_unsetPeerConnection => unsetPeerConnection
  end.

(** The attribute a setter is for, and the value its call passes
    ([unsetPeerConnection] passes [null]). *)
Definition designated (c : SetterCall) : Attr :=
  match c with
  | Call_setMediaDirection _ => A_mediaDirection
  | Call_setMediaPeerConnection _ => A_webrtcMediaConnection
  | Call_setLocalVideoStream _ => A_videoStream
  | Call_setLocalAudioStream _ => A_audioStream
  | Call_setLocalShareVideoStream _ => A_shareVideoStream
  | Call_setLocalShareAudioStream _ => A_shareAudioStream
  | Call_setRemoteQualityLevel _ => A_remoteQualityLevel
  | Call_setRemoteShare _ => A_remoteShare
  | Call_setRemoteAudioStream _ => A_remoteAudioStream
  | Call_setRemoteVideoStream _ => A_remoteVideoStream
  | Call_setVideoDeviceId _ => A_videoDeviceId
  | Call_unsetPeerConnection => A_webrtcMediaConnection
  end.

Definition passed (c : SetterCall) : AttrVal :=
  match c with
  | Call_setMediaDirection d => ADirection d
  | Call_setMediaPeerConnection v | Call_setLocalVideoStream v
  | Call_setLocalAudioStream v | Call_setLocalShareVideoStream v
  | Call_setLocalShareAudioStream v | Call_setRemoteQualityLevel v
  | Call_setRemoteShare v | Call_setRemoteAudioStream v
  | Call_setRemoteVideoStream v | Call_setVideoDeviceId v => AJs v
  | Call_unsetPeerConnection => AJs VNull
  end.

(** ** Strings

    Strings are sequences of ASCII characters here: [toLowerCase] and
    [toUpperCase] change the letters A to Z and a to z and leave every other
    character as it is. *)

Definition is_upper (c : ascii) : bool :=
  ((65 <=? nat_of_ascii c) && (nat_of_ascii c <=? 90))%nat.

Definition is_lower (c : ascii) : bool :=
  ((97 <=? nat_of_ascii c) && (nat_of_ascii c <=? 122))%nat.

Definition ascii_toLowerCase (c : ascii) : ascii :=
  if is_upper c then ascii_of_nat (nat_of_ascii c + 32) else c.

Definition ascii_toUpperCase (c : ascii) : ascii :=
  if is_lower c then ascii_of_nat (nat_of_ascii c - 32) else c.

Fixpoint toLowerCase (s : string) : string :=
  match s with
  | EmptyString => EmptyString
  | String c s' => String (ascii_toLowerCase c) (toLowerCase s')
  end.

Fixpoint toUpperCase (s : string) : string :=
  match s with
  | EmptyString => EmptyString
  | String c s' => String (ascii_toUpperCase c) (toUpperCase s')
  end.

(** ** The stats reports

    The entries of the [RTCStatsReport] that [getStats()] resolves with.
    [type] and [id] are in every entry; the other fields that the class
    reads are strings that an entry may lack ([None] is [undefined]). *)
Record Report : Type := {
  type : string;
  id : string;
  state : option string;
  localCandidateId : option string;
  relayProtocol : option string;
  protocol : option string;
}.

(** What is thrown, or given as the reason of a rejection. *)
Inductive Exn : Type :=
| TypeError
| Thrown (v : JsVal).

(** What [getStats()] does when it is called. *)
Inductive StatsOutcome : Type :=
| StatsThrows (e : Exn)
| StatsRejects (e : Exn)
| StatsResolves (reports : list Report).

(** ** The media connection and the host

    The connection is an object of [@webex/internal-media-core], shared
    between the instance and the library: the instance holds a handle, the
    library changes the state and emits the events.  A listener or timer is
    named by the call of [waitForMediaConnectionConnected] that created it. *)

Inductive ConnectionState : Type :=
| New | Closed | Connected | Connecting | Disconnected | Failed.

#[global] Instance ConnectionState_eq_dec : EqDecision ConnectionState.
Proof. solve_decision. Defined.

Inductive Event : Type :=
| CONNECTION_STATE_CHANGED
| OtherEvent (name : string).

#[global] Instance Event_eq_dec : EqDecision Event.
Proof. solve_decision. Defined.

Record MediaConnection : Type := {
  connectionState : ConnectionState;
  listeners : list (Event * nat);
  stats : StatsOutcome;
}.

Inductive PromiseState : Type :=
| Pending
| Fulfilled
| Rejected (reason : Exn).

(** The instance, the connections it may refer to, the pending timers (each
    with the time at which it is due), the promises created so far and the
    clock, in milliseconds. *)
Record World : Type := {
  this : MediaProperties;
  connections : gmap nat MediaConnection;
  timers : gmap nat Z;
  promises : list PromiseState;
  clock : Z;
}.

Definition with_this (o : MediaProperties) (w : World) : World :=
  {| this := o; connections := connections w; timers := timers w;
     promises := promises w; clock := clock w |}.

Definition with_connections (cs : gmap nat MediaConnection) (w : World) : World :=
  {| this := this w; connections := cs; timers := timers w;
     promises := promises w; clock := clock w |}.

Definition with_timers (ts : gmap nat Z) (w : World) : World :=
  {| this := this w; connections := connections w; timers := ts;
     promises := promises w; clock := clock w |}.

Definition with_promises (ps : list PromiseState) (w : World) : World :=
  {| this := this w; connections := connections w; timers := timers w;
     promises := ps; clock := clock w |}.

Definition with_clock (t : Z) (w : World) : World :=
  {| this := this w; connections := connections w; timers := timers w;
     promises := promises w; clock := t |}.

Definition with_listeners (ls : list (Event * nat)) (c : MediaConnection) : MediaConnection :=
  {| connectionState := connectionState c; listeners := ls; stats := stats c |}.

Definition with_connectionState (s : ConnectionState) (c : MediaConnection) : MediaConnection :=
  {| connectionState := s; listeners := listeners c; stats := stats c |}.

(** Code that reads and changes the world and may throw. *)
Inductive Completion (A : Type) : Type :=
| Normal (a : A)
| Throw (e : Exn).

Arguments Normal {A} a.
Arguments Throw {A} e.

Definition M (A : Type) : Type := World -> Completion A * World.

Definition ret {A} (a : A) : M A := fun w => (Normal a, w).

Definition bind {A B} (m : M A) (f : A -> M B) : M B :=
  fun w =>
    match m w with
    | (Normal a, w') => f a w'
    | (Throw e, w') => (Throw e, w')
    end.

Notation "'do' x <- m ; f" := (bind m (fun x => f))
  (at level 10, x name, m at level 100, f at level 200).
Notation "'exec' m ; f" := (bind m (fun _ => f))
  (at level 10, m at level 100, f at level 200).

Definition throw {A} (e : Exn) : M A := fun w => (Throw e, w).

(** [this.webrtcMediaConnection] *)
Definition get_webrtcMediaConnection : M JsVal :=
  fun w => (Normal (webrtcMediaConnection (this w)), w).

(** The object a value refers to when a method of a media connection is
    called on it: a [TypeError] for [null], [undefined] and whatever is not
    a media connection. *)
Definition connection_of (conn : JsVal) : M (nat * MediaConnection) :=
  fun w =>
    match conn with
    | VObj h =>
        match connections w !! h with
        | Some c => (Normal (h, c), w)
        | None => (Throw TypeError, w)
        end
    | _ => (Throw TypeError, w)
    end.

(** [conn.getConnectionState()] *)
Definition getConnectionState (conn : JsVal) : M ConnectionState :=
  do hc <- connection_of conn ; ret (connectionState (snd hc)).

(** [conn.on(ev, listener)]: the listener is added after the others. *)
Definition on (conn : JsVal) (ev : Event) (k : nat) : M unit :=
  do hc <- connection_of conn ;
  fun w =>
    (Normal tt,
     with_connections
       (<[fst hc := with_listeners (listeners (snd hc) ++ [(ev, k)]) (snd hc)]>
          (connections w)) w).

(** [conn.off(ev, listener)] *)
Definition off (conn : JsVal) (ev : Event) (k : nat) : M unit :=
  do hc <- connection_of conn ;
  fun w =>
    (Normal tt,
     with_connections
       (<[fst hc := with_listeners
                      (filter (fun l => l ≠ (ev, k)) (listeners (snd hc)))
                      (snd hc)]>
          (connections w)) w).

(** [await conn.getStats()]: the reports, or what was thrown by the call or
    given as the reason of the rejection. *)
Definition await_getStats (conn : JsVal) : M (list Report) :=
  do hc <- connection_of conn ;
  match stats (snd hc) with
  | StatsThrows e => throw e
  | StatsRejects e => throw e
  | StatsResolves reports => ret reports
  end.

(** [setTimeout(callback, delay)] for the timer of the wait [k]: due
    [delay] milliseconds from now (at once when the delay is negative). *)
Definition setTimeout (k : nat) (delay : Z) : M unit :=
  fun w => (Normal tt, with_timers (<[k := clock w + Z.max 0 delay]> (timers w)) w).

Definition clearTimeout (k : nat) : M unit :=
  fun w => (Normal tt, with_timers (delete k (timers w)) w).

(** A promise is settled once: later calls of [resolve] and [reject] have
    no effect. *)
Definition settle (p : nat) (s : PromiseState) : M unit :=
  fun w =>
    match promises w !! p with
    | Some Pending => (Normal tt, with_promises (<[p := s]> (promises w)) w)
    | _ => (Normal tt, w)
    end.

Definition resolve (p : nat) : M unit := settle p Fulfilled.

(** [reject()], with no reason *)
Definition reject (p : nat) : M unit := settle p (Rejected (Thrown VUndefined)).

(** [Promise.resolve()] *)
Definition Promise_resolve : M nat :=
  fun w => (Normal (length (promises w)), with_promises (promises w ++ [Fulfilled]) w).

(** [new Promise(executor)]: the executor runs at once, and what it throws
    rejects the promise. *)
Definition new_Promise (executor : nat -> M unit) : M nat :=
  fun w =>
    let p := length (promises w) in
    match executor p (with_promises (promises w ++ [Pending]) w) with
    | (Normal _, w') => (Normal p, w')
    | (Throw e, w') => (Normal p, snd (settle p (Rejected e) w'))
    end.

(** [try { body } catch (error) { handler }] *)
Definition try_catch {A} (body : M A) (handler : Exn -> M A) : M A :=
  fun w =>
    match body w with
    | (Normal a, w') => (Normal a, w')
    | (Throw error, w') => handler error w'
    end.

(** ** The classification of the connection type *)

(** A field that may be [undefined], as a condition *)
Definition truthy_field (f : option string) : bool :=
  match f with
  | Some s => negb (String.eqb s "")
  | None => false
  end.

(** [id === field] for a field that may be [undefined] *)
Definition strict_eq_field (s : string) (f : option string) : bool :=
  match f with
  | Some s' => String.eqb s s'
  | None => false
  end.

(** [Array.prototype.some], for a callback that may assign a variable of
    the enclosing function: the callback is given the value of the variable
    and returns its result with the new value. *)
Fixpoint some {A V : Type} (callback : A -> V -> bool * V) (l : list A) (v : V)
  : bool * V :=
  match l with
  | [] => (false, v)
  | a :: l' =>
      match callback a v with
      | (true, v') => (true, v')
      | (false, v') => some callback l' v'
      end
  end.

(** The filter of [successfulCandidatePairs]:
    [report.type === 'candidate-pair' &&
     report.state?.toLowerCase() === 'succeeded'] *)
Definition is_successful_pair (report : Report) : bool :=
  String.eqb (type report) "candidate-pair"
  && match state report with
     | Some s => String.eqb (toLowerCase s) "succeeded"
     | None => false
     end.

(** The callback given to [some]; the variable is [foundConnectionType]. *)
Definition pair_callback (allStatsReports : list Report) (pair : Report)
  (foundConnectionType : string) : bool * string :=
  match
    List.find
      (fun report =>
         String.eqb (type report) "local-candidate"
         && strict_eq_field (id report) (localCandidateId pair))
      allStatsReports
  with
  | None => (false, foundConnectionType)
  | Some localCandidate =>
      let connectionType :=
        if truthy_field (relayProtocol localCandidate) then
          option_map (fun p => "TURN-" ++ toUpperCase p) (relayProtocol localCandidate)
        else option_map toUpperCase (protocol localCandidate) in
      match connectionType with
      | Some t => if truthy (VStr t) then (true, t) else (false, foundConnectionType)
      | None => (false, foundConnectionType)
      end
  end.

(** The part of [getCurrentConnectionType] that follows the [try]. *)
Definition connectionType_of (allStatsReports : list Report) : string :=
  let successfulCandidatePairs := List.filter is_successful_pair allStatsReports in
  snd (some (pair_callback allStatsReports) successfulCandidatePairs "unknown").

Section Constants.

(** The constants of [../constants] that the class imports. *)
Variable MEETINGS : JsVal.
Variable QUALITY_LEVELS_HIGH : JsVal.
Variable PC_BAIL_TIMEOUT : Z.

(** The constructor, with the field initialiser [namespace = MEETINGS]. *)
Definition new_MediaProperties : MediaProperties :=
  {| webrtcMediaConnection := VNull;
     mediaDirection :=
       {| receiveAudio := false;
          receiveVideo := false;
          receiveShare := false;
          sendAudio := false;
          sendVideo := false;
          sendShare := false |};
     videoStream := VNull;
     audioStream := VNull;
     shareVideoStream := VNull;
     shareAudioStream := VNull;
     remoteShare := VUndefined;
     remoteAudioStream := VUndefined;
     remoteVideoStream := VUndefined;
     remoteQualityLevel := QUALITY_LEVELS_HIGH;
     mediaSettings := ∅;
     videoDeviceId := VNull;
     namespace := MEETINGS;
     remoteShareStream := VUndefined |}.


(** ** waitForMediaConnectionConnected *)

Definition isConnected : M bool :=
  do conn <- get_webrtcMediaConnection ;
  do s <- getConnectionState conn ;
  ret (bool_decide (s = Connected)).

(** The listener of the wait [k]; the state it reads first is the one it
    logs. *)
Definition connectionStateListener (k : nat) : M unit :=
  do conn <- get_webrtcMediaConnection ;
  exec getConnectionState conn ;
  do connected <- isConnected ;
  if connected then
    exec clearTimeout k ;
    do conn <- get_webrtcMediaConnection ;
    exec off conn CONNECTION_STATE_CHANGED k ;
    resolve k
  else ret tt.

(** The callback of the timer of the wait [k]. *)
Definition bailTimeout (k : nat) : M unit :=
  do conn <- get_webrtcMediaConnection ;
  exec off conn CONNECTION_STATE_CHANGED k ;
  reject k.

Definition waitForMediaConnectionConnected : M nat :=
  do connected <- isConnected ;
  if connected then Promise_resolve
  else
    new_Promise (fun k =>
      exec setTimeout k PC_BAIL_TIMEOUT ;
      do conn <- get_webrtcMediaConnection ;
      on conn CONNECTION_STATE_CHANGED k).


(** ** getCurrentConnectionType *)

(** The promise of an [async] function: settled, or waiting for the
    promise [p]. *)
Inductive Async (A : Type) : Type :=
| Settled (r : Completion A)
| Awaiting (p : nat).

#[global] Arguments Settled {A} r.
#[global] Arguments Awaiting {A} p.

(** The body from [const allStatsReports = []] on; the error caught is
    logged. *)
Definition getCurrentConnectionType_body : M string :=
  do allStatsReports <-
    try_catch
      (do conn <- get_webrtcMediaConnection ;
       do statsResult <- await_getStats conn ;
       ret statsResult)
      (fun error => ret []) ;
  ret (connectionType_of allStatsReports).

(** [await p], for the promise of the wait, and what follows it. *)
Definition getCurrentConnectionType_resume (p : nat) (w : World)
  : Async string * World :=
  match promises w !! p with
  | Some Fulfilled =>
      let (r, w') := getCurrentConnectionType_body w in (Settled r, w')
  | Some (Rejected e) => (Settled (Throw e), w)
  | _ => (Awaiting p, w)
  end.

Definition getCurrentConnectionType (w : World) : Async string * World :=
  match waitForMediaConnectionConnected w with
  | (Normal p, w') => getCurrentConnectionType_resume p w'
  | (Throw e, w') => (Settled (Throw e), w')
  end.

(** ** The host: events of the connection, time, and calls of the
    application *)

(** The listeners of an event are called in the order of their
    registration, from the list as it is when the event is emitted; a
    listener that throws ends the emission. *)
Fixpoint call_listeners (ks : list nat) : M unit :=
  match ks with
  | [] => ret tt
  | k :: ks' => exec connectionStateListener k ; call_listeners ks'
  end.

Definition emit (h : nat) (ev : Event) : M unit :=
  fun w =>
    match connections w !! h with
    | Some c =>
        call_listeners
          (map snd (List.filter (fun l => bool_decide (fst l = ev)) (listeners c))) w
    | None => (Normal tt, w)
    end.

(** The timers that are due, the earliest first and, of two due at the same
    time, the one created first. *)
Definition timer_leb (a b : nat * Z) : bool :=
  (snd a <? snd b) || ((snd a =? snd b) && (fst a <=? fst b)%nat).

Fixpoint insert_timer (a : nat * Z) (l : list (nat * Z)) : list (nat * Z) :=
  match l with
  | [] => [a]
  | b :: l' => if timer_leb a b then a :: l else b :: insert_timer a l'
  end.

Definition due_timers (w : World) : list nat :=
  map fst
    (foldr insert_timer []
       (List.filter (fun a => snd a <=? clock w) (map_to_list (timers w)))).

(** A timer fires once, unless it was cleared; what its callback throws is
    reported by the host and does not stop the other timers. *)
Definition fire (k : nat) (w : World) : World :=
  match timers w !! k with
  | Some _ => snd (bailTimeout k (with_timers (delete k (timers w)) w))
  | None => w
  end.

Fixpoint fire_all (ks : list nat) (w : World) : World :=
  match ks with
  | [] => w
  | k :: ks' => fire_all ks' (fire k w)
  end.

Inductive HostEvent : Type :=
| StateChanged (h : nat) (s : ConnectionState)
| Elapse (d : N)
| Setter (c : SetterCall)
| Wait.

(** [StateChanged h s]: the library moves the connection [h] to the state
    [s] and emits [CONNECTION_STATE_CHANGED]; [Elapse d]: [d] milliseconds
    pass; [Setter c]: the application calls a setter; [Wait]: the
    application calls [waitForMediaConnectionConnected]. *)
Definition step (e : HostEvent) (w : World) : World :=
  match e with
  | StateChanged h s =>
      match connections w !! h with
      | Some c =>
          snd (emit h CONNECTION_STATE_CHANGED
                 (with_connections
                    (<[h := with_connectionState s c]> (connections w)) w))
      | None => w
      end
  | Elapse d =>
      let w' := with_clock (clock w + Z.of_N d) w in
      fire_all (due_timers w') w'
  | Setter c => with_this (run_setter c (this w)) w
  | Wait => snd (waitForMediaConnectionConnected w)
  end.

Fixpoint run (tr : list HostEvent) (w : World) : World :=
  match tr with
  | [] => w
  | e :: tr' => run tr' (step e w)
  end.

(** The time that passes in a trace. *)
Fixpoint elapsed (tr : list HostEvent) : Z :=
  match tr with
  | [] => 0
  | Elapse d :: tr' => Z.of_N d + elapsed tr'
  | _ :: tr' => elapsed tr'
  end.

(** An event that neither brings the connection [h] to [Connected] nor
    gives the instance another connection than [h]. *)
Definition quiet (h : nat) (e : HostEvent) : Prop :=
  match e with
  | StateChanged h' s => h' = h -> s <> Connected
  | Setter c => designated c = A_webrtcMediaConnection -> passed c = AJs (VObj h)
  | Elapse _ | Wait => True
  end.


(** What a wait that finds the connection not yet connected leaves behind. *)
Definition waiting_world (h : nat) (c : MediaConnection) (w : World) : World :=
  let k := length (promises w) in
  {| this := this w;
     connections :=
       <[h := with_listeners (listeners c ++ [(CONNECTION_STATE_CHANGED, k)]) c]>
         (connections w);
     timers := <[k := clock w + Z.max 0 PC_BAIL_TIMEOUT]> (timers w);
     promises := promises w ++ [Pending];
     clock := clock w |}.

(** ** The classification, in the words of the specification

    A pair is successful when it is a candidate pair whose state is
    'succeeded' whatever the case of its letters.  The type of a pair is that
    of the local candidate it refers to: 'TURN-' and the relay protocol in
    upper case when the candidate has one, else its protocol in upper case;
    a field that is the empty string counts as absent, as it does in a
    condition of the source.  The connection type is the type of the first
    successful pair that has one, else 'unknown'. *)

Definition ascii_eq_ignore_case (a b : ascii) : bool :=
  Ascii.eqb a b
  || (is_upper a && (nat_of_ascii b =? nat_of_ascii a + 32)%nat)
  || (is_lower a && (nat_of_ascii b =? nat_of_ascii a - 32)%nat).

Fixpoint eq_ignore_case (s t : string) : bool :=
  match s, t with
  | EmptyString, EmptyString => true
  | String a s', String b t' => ascii_eq_ignore_case a b && eq_ignore_case s' t'
  | _, _ => false
  end.

Definition present (f : option string) : option string :=
  match f with
  | Some EmptyString | None => None
  | Some s => Some s
  end.

Definition spec_successful (report : Report) : bool :=
  String.eqb (type report) "candidate-pair"
  && match state report with
     | Some s => eq_ignore_case s "succeeded"
     | None => false
     end.

Definition spec_local_candidate (reports : list Report) (pair : Report)
  : option Report :=
  List.find
    (fun r =>
       String.eqb (type r) "local-candidate"
       && bool_decide (localCandidateId pair = Some (id r)))
    reports.

Definition spec_candidate_type (localCandidate : Report) : option string :=
  match present (relayProtocol localCandidate) with
  | Some relay => Some ("TURN-" ++ toUpperCase relay)
  | None =>
      match present (protocol localCandidate) with
      | Some p => Some (toUpperCase p)
      | None => None
      end
  end.

Definition spec_pair_type (reports : list Report) (pair : Report) : option string :=
  match spec_local_candidate reports pair with
  | Some localCandidate => spec_candidate_type localCandidate
  | None => None
  end.

Definition spec_connectionType (reports : list Report) : string :=
  match
    List.find (fun pair => bool_decide (is_Some (spec_pair_type reports pair)))
      (List.filter spec_successful reports)
  with
  | Some first => default "unknown" (spec_pair_type reports first)
  | None => "unknown"
  end.

(** The reports that the [try] block collects from an outcome of
    [getStats()] *)
Definition collected (o : StatsOutcome) : list Report :=
  match o with
  | StatsResolves reports => reports
  | StatsThrows _ | StatsRejects _ => []
  end.

(** ** The state of one wait

    The wait [k] on the connection [h]: whether its listener is registered,
    its timer if pending, and the state of its promise. *)
Definition wait_state (k h : nat) (registered : bool) (timer : option Z)
  (p : PromiseState) (w : World) : Prop :=
  webrtcMediaConnection (this w) = VObj h
  /\ (exists c : MediaConnection,
        connections w !! h = Some c
        /\ ((CONNECTION_STATE_CHANGED, k) ∈ listeners c <-> registered = true))
  /\ timers w !! k = timer
  /\ promises w !! k = Some p.

Definition connection_in_state (h : nat) (s : ConnectionState) (w : World) : Prop :=
  exists c : MediaConnection,
    connections w !! h = Some c /\ connectionState c = s.

(** The wait [k] is pending on the connection [h], which is not connected,
    and its timer is due at [due]. *)
Definition pending_wait (k h : nat) (due : Z) (w : World) : Prop :=
  wait_state k h true (Some due) Pending w
  /\ exists s : ConnectionState, s <> Connected /\ connection_in_state h s w.

(** The connection [h] without the listener of the wait [k]. *)
Definition detached (k h : nat) (c : MediaConnection) (w : World) : World :=
  with_connections
    (<[h := with_listeners
              (filter (fun l => l ≠ (CONNECTION_STATE_CHANGED, k)) (listeners c)) c]>
       (connections w)) w.

(** Every lapse of time of the trace ends before the budget is spent. *)
Fixpoint in_time (budget : Z) (tr : list HostEvent) : Prop :=
  match tr with
  | [] => True
  | Elapse d :: tr' => Z.of_N d < budget /\ in_time (budget - Z.of_N d) tr'
  | _ :: tr' => in_time budget tr'
  end.


(** ** A sample world

    An instance whose media connection is the object 7, in the state [s]
    and with the outcome [o] of [getStats()]; and the reports of a relayed
    connection. *)
Definition sample_connection (s : ConnectionState) (o : StatsOutcome)
  : MediaConnection :=
  {| connectionState := s; listeners := []; stats := o |}.

Definition sample_world (s : ConnectionState) (o : StatsOutcome) : World :=
  {| this := setMediaPeerConnection (VObj 7) new_MediaProperties;
     connections := {[ 7%nat := sample_connection s o ]};
     timers := ∅;
     promises := [];
     clock := 0 |}.

Definition sample_reports : list Report :=
  [ {| type := "candidate-pair"; id := "CP1"; state := Some "Succeeded";
       localCandidateId := Some "L1"; relayProtocol := None; protocol := None |};
    {| type := "local-candidate"; id := "L1"; state := None;
       localCandidateId := None; relayProtocol := Some "tls";
       protocol := Some "udp" |} ].


(** The reports that the classification reads: the candidate pairs and the
    local candidates. *)
Definition relevant_report (report : Report) : bool :=
  String.eqb (type report) "candidate-pair"
  || String.eqb (type report) "local-candidate".


(** The connection [h] exists and [getStats()] has the outcome [o] on it. *)
Definition stats_of (h : nat) (o : StatsOutcome) (w : World) : Prop :=
  exists c : MediaConnection, connections w !! h = Some c /\ stats c = o.

(** The instance refers to no media connection: its field is null or
    undefined, or a value that is not a media connection. *)
Definition without_connection (w : World) : Prop :=
  forall (h : nat) (c : MediaConnection),
    webrtcMediaConnection (this w) = VObj h -> connections w !! h <> Some c.

(** An event other than a call of a setter. *)
Definition not_setter (e : HostEvent) : Prop :=
  match e with
  | Setter _ => False
  | _ => True
  end.


(** An event that does not give the instance another connection than
    [h]. *)
Definition keeps_connection (h : nat) (e : HostEvent) : Prop :=
  match e with
  | Setter c => designated c = A_webrtcMediaConnection -> passed c = AJs (VObj h)
  | _ => True
  end.


(** An event that gives the instance no connection: any event but a call
    of setMediaPeerConnection or unsetPeerConnection. *)
Definition no_new_connection (e : HostEvent) : Prop :=
  match e with
  | Setter c => designated c <> A_webrtcMediaConnection
  | _ => True
  end.

(** The wait [k] has its listener on the connection [h] while the instance
    refers to another connection [h2]. *)
Definition stray_wait (k h h2 : nat) (timer : option Z) (p : PromiseState)
  (w : World) : Prop :=
  webrtcMediaConnection (this w) = VObj h2
  /\ h2 <> h
  /\ (exists c2 : MediaConnection, connections w !! h2 = Some c2)
  /\ (exists c : MediaConnection,
        connections w !! h = Some c
        /\ (CONNECTION_STATE_CHANGED, k) ∈ listeners c)
  /\ timers w !! k = timer
  /\ promises w !! k = Some p.


(** An event that does not bring the connection [h] to [Connected]; what
    the application calls meanwhile is left open. *)
Definition never_connected (h : nat) (e : HostEvent) : Prop :=
  match e with
  | StateChanged h' s => h' = h -> s <> Connected
  | _ => True
  end.

(** * Properties *)

(** ** The fields and their setters *)

Lemma truthy_js_or (a b : JsVal) :
  truthy (js_or a b) = truthy a || truthy b.
Proof. unfold js_or. destruct (truthy a) eqn:Ha; simpl; auto. Qed.

(** C5. Each of the twelve setters and unsetters stores the value it is
    given in its own attribute, whatever that value and the other
    attributes are, and leaves every other attribute as it was; so every
    combination of the six direction flags is accepted. *)
Theorem setter_writes_only_its_attribute
  (c : SetterCall) (this : MediaProperties) (a : Attr)
  (Hother : a <> designated c) :
  read (designated c) (run_setter c this) = passed c
  /\ read a (run_setter c this) = read a this
  /\ (forall sa sv ss ra rv rs : bool,
        let d := {| sendAudio := sa; sendVideo := sv; sendShare := ss;
                    receiveAudio := ra; receiveVideo := rv; receiveShare := rs |} in
        mediaDirection (setMediaDirection d this) = d).
Proof.
  split; [| split].
  - destruct c; reflexivity.
  - destruct c, a; simpl in *; try reflexivity; congruence.
  - reflexivity.
Qed.

(** C6. The direction is six booleans, each free of the others, and the
    constructor sets all six to false, the connection to null, the local
    streams to null, the remote streams to undefined, the remote quality
    level to QUALITY_LEVELS.HIGH and the media settings to an empty
    object. *)
Theorem constructor_initial_state :
  (forall sa sv ss ra rv rs : bool,
      exists d : MediaDirection,
        (sendAudio d = sa /\ sendVideo d = sv /\ sendShare d = ss
         /\ receiveAudio d = ra /\ receiveVideo d = rv /\ receiveShare d = rs)
        /\ forall d' : MediaDirection,
            sendAudio d' = sa -> sendVideo d' = sv -> sendShare d' = ss ->
            receiveAudio d' = ra -> receiveVideo d' = rv -> receiveShare d' = rs ->
            d' = d)
  /\ mediaDirection new_MediaProperties
     = {| sendAudio := false; sendVideo := false; sendShare := false;
          receiveAudio := false; receiveVideo := false; receiveShare := false |}
  /\ webrtcMediaConnection new_MediaProperties = VNull
  /\ videoStream new_MediaProperties = VNull
  /\ audioStream new_MediaProperties = VNull
  /\ shareVideoStream new_MediaProperties = VNull
  /\ shareAudioStream new_MediaProperties = VNull
  /\ remoteShare new_MediaProperties = VUndefined
  /\ remoteAudioStream new_MediaProperties = VUndefined
  /\ remoteVideoStream new_MediaProperties = VUndefined
  /\ remoteQualityLevel new_MediaProperties = QUALITY_LEVELS_HIGH
  /\ mediaSettings new_MediaProperties = ∅.
Proof.
  split; [| repeat split].
  intros sa sv ss ra rv rs.
  exists {| sendAudio := sa; sendVideo := sv; sendShare := ss;
            receiveAudio := ra; receiveVideo := rv; receiveShare := rs |}.
  split; [repeat split |].
  intros [] ? ? ? ? ? ?; simpl in *; congruence.
Qed.

(** C7. hasLocalShareStream is true exactly when the share audio stream or
    the share video stream is truthy; it is false for a new instance and
    after both share setters were called with null or undefined. *)
Theorem hasLocalShareStream_iff (this : MediaProperties) :
  (hasLocalShareStream this = true
   <-> truthy (shareAudioStream this) = true
       \/ truthy (shareVideoStream this) = true)
  /\ hasLocalShareStream new_MediaProperties = false
  /\ (forall a v : JsVal,
        (a = VNull \/ a = VUndefined) -> (v = VNull \/ v = VUndefined) ->
        hasLocalShareStream
          (setLocalShareVideoStream v (setLocalShareAudioStream a this)) = false
        /\ hasLocalShareStream
             (setLocalShareAudioStream a (setLocalShareVideoStream v this)) = false).
Proof.
  unfold hasLocalShareStream. split; [| split].
  - rewrite truthy_js_or. apply orb_true_iff.
  - reflexivity.
  - intros a v [-> | ->] [-> | ->]; split; reflexivity.
Qed.

(** C8. unsetRemoteStreams sets the remote audio and video streams to null
    and leaves remoteShare as it is: unsetRemoteShareStream assigns null to
    the property remoteShareStream, not to the field remoteShare that
    setRemoteShare writes. *)
Theorem unsetRemoteStreams_keeps_remoteShare (this : MediaProperties) :
  remoteAudioStream (unsetRemoteStreams this) = VNull
  /\ remoteVideoStream (unsetRemoteStreams this) = VNull
  /\ remoteShare (unsetRemoteStreams this) = remoteShare this
  /\ remoteShareStream (unsetRemoteShareStream this) = VNull
  /\ remoteShare (unsetRemoteShareStream this) = remoteShare this
  /\ (forall v : JsVal,
        remoteShare (setRemoteShare v this) = v
        /\ remoteShareStream (setRemoteShare v this) = remoteShareStream this
        /\ remoteShare (unsetRemoteStreams (setRemoteShare v this)) = v).
Proof. repeat split. Qed.

(** C10. getVideoDeviceId returns null whenever the stored device id is
    falsy: after setVideoDeviceId with the empty string it returns null and
    not the empty string, and it returns null for a new instance. *)
Theorem getVideoDeviceId_falsy (this : MediaProperties)
  (Hfalsy : truthy (videoDeviceId this) = false) :
  getVideoDeviceId this = VNull
  /\ getVideoDeviceId (setVideoDeviceId (VStr "") this) = VNull
  /\ getVideoDeviceId (setVideoDeviceId (VStr "") this) <> VStr ""
  /\ getVideoDeviceId new_MediaProperties = VNull.
Proof.
  unfold getVideoDeviceId, js_or. rewrite Hfalsy. simpl.
  repeat split. discriminate.
Qed.

(** ** Calls on the connection *)

Lemma isConnected_on_connection (w : World) (h : nat) (c : MediaConnection) :
  webrtcMediaConnection (this w) = VObj h ->
  connections w !! h = Some c ->
  isConnected w = (Normal (bool_decide (connectionState c = Connected)), w).
Proof.
  intros Hconn Hc.
  unfold isConnected, bind, get_webrtcMediaConnection, getConnectionState,
    bind, connection_of, ret.
  rewrite Hconn, Hc. reflexivity.
Qed.

Lemma isConnected_without_connection (w : World) :
  webrtcMediaConnection (this w) = VNull ->
  isConnected w = (Throw TypeError, w).
Proof.
  intros Hconn.
  unfold isConnected, bind, get_webrtcMediaConnection, getConnectionState,
    bind, connection_of.
  rewrite Hconn. reflexivity.
Qed.

Lemma wait_connected (w : World) (h : nat) (c : MediaConnection) :
  webrtcMediaConnection (this w) = VObj h ->
  connections w !! h = Some c ->
  connectionState c = Connected ->
  waitForMediaConnectionConnected w
  = (Normal (length (promises w)), with_promises (promises w ++ [Fulfilled]) w).
Proof.
  intros Hconn Hc Hs.
  unfold waitForMediaConnectionConnected, bind.
  rewrite (isConnected_on_connection w h c Hconn Hc), Hs.
  rewrite bool_decide_eq_true_2 by reflexivity. reflexivity.
Qed.

Lemma wait_not_connected (w : World) (h : nat) (c : MediaConnection) :
  webrtcMediaConnection (this w) = VObj h ->
  connections w !! h = Some c ->
  connectionState c <> Connected ->
  waitForMediaConnectionConnected w
  = (Normal (length (promises w)), waiting_world h c w).
Proof.
  intros Hconn Hc Hs.
  unfold waitForMediaConnectionConnected, bind.
  rewrite (isConnected_on_connection w h c Hconn Hc).
  rewrite bool_decide_eq_false_2 by assumption.
  unfold new_Promise, bind, setTimeout, get_webrtcMediaConnection, on, bind,
    connection_of. simpl.
  rewrite Hconn, Hc. reflexivity.
Qed.

Lemma wait_keeps_this (w : World) :
  this (snd (waitForMediaConnectionConnected w)) = this w.
Proof.
  destruct (webrtcMediaConnection (this w)) as [| | b | n | s | h] eqn:Hconn;
    try (unfold waitForMediaConnectionConnected, isConnected, bind,
           get_webrtcMediaConnection, getConnectionState, bind, connection_of;
         rewrite Hconn; reflexivity).
  destruct (connections w !! h) as [c |] eqn:Hc.
  - destruct (decide (connectionState c = Connected)) as [Hs | Hs].
    + rewrite (wait_connected w h c Hconn Hc Hs). reflexivity.
    + rewrite (wait_not_connected w h c Hconn Hc Hs). reflexivity.
  - unfold waitForMediaConnectionConnected, isConnected, bind,
      get_webrtcMediaConnection, getConnectionState, bind, connection_of.
    rewrite Hconn, Hc. reflexivity.
Qed.

(** C9. Without a media connection (webrtcMediaConnection is null, as in a
    new instance and after unsetPeerConnection) the call throws a TypeError
    at once: no promise is returned and nothing is changed.  With a media
    connection set, the call returns a promise, fulfilled or pending. *)
Theorem wait_needs_connection (w : World) :
  (webrtcMediaConnection (this w) = VNull ->
   waitForMediaConnectionConnected w = (Throw TypeError, w))
  /\ waitForMediaConnectionConnected (with_this new_MediaProperties w)
     = (Throw TypeError, with_this new_MediaProperties w)
  /\ waitForMediaConnectionConnected (with_this (unsetPeerConnection (this w)) w)
     = (Throw TypeError, with_this (unsetPeerConnection (this w)) w)
  /\ (forall (h : nat) (c : MediaConnection),
        webrtcMediaConnection (this w) = VObj h ->
        connections w !! h = Some c ->
        exists (p : nat) (w' : World),
          waitForMediaConnectionConnected w = (Normal p, w')
          /\ (promises w' !! p = Some Fulfilled \/ promises w' !! p = Some Pending)).
Proof.
  assert (Hthrow : forall w0, webrtcMediaConnection (this w0) = VNull ->
                     waitForMediaConnectionConnected w0 = (Throw TypeError, w0)).
  { intros w0 Hnull. unfold waitForMediaConnectionConnected, bind.
    rewrite (isConnected_without_connection w0 Hnull). reflexivity. }
  split; [apply Hthrow |].
  split; [apply Hthrow; reflexivity |].
  split; [apply Hthrow; reflexivity |].
  intros h c Hconn Hc.
  destruct (decide (connectionState c = Connected)) as [Hs | Hs].
  - eexists _, _. split; [apply (wait_connected w h c Hconn Hc Hs) |].
    left. simpl. apply list_lookup_middle. reflexivity.
  - eexists _, _. split; [apply (wait_not_connected w h c Hconn Hc Hs) |].
    right. simpl. apply list_lookup_middle. reflexivity.
Qed.

(** ** The classification *)

Lemma all_ascii_complete (a : ascii) : In a (map ascii_of_nat (seq 0 256)).
Proof.
  rewrite <- (ascii_nat_embedding a).
  apply in_map, in_seq. pose proof (nat_ascii_bounded a). lia.
Qed.

Lemma ascii_eq_ignore_case_lower (a b : ascii) :
  In b ["s"; "u"; "c"; "e"; "d"]%char ->
  ascii_eq_ignore_case a b = Ascii.eqb (ascii_toLowerCase a) b.
Proof.
  intros Hb.
  assert (H : forallb
                (fun b => forallb
                   (fun a => Bool.eqb (ascii_eq_ignore_case a b)
                               (Ascii.eqb (ascii_toLowerCase a) b))
                   (map ascii_of_nat (seq 0 256)))
                ["s"; "u"; "c"; "e"; "d"]%char = true)
    by (vm_compute; reflexivity).
  rewrite forallb_forall in H. specialize (H b Hb).
  rewrite forallb_forall in H. specialize (H a (all_ascii_complete a)).
  apply Bool.eqb_prop in H. exact H.
Qed.
Lemma eq_ignore_case_lower (t : string) :
  Forall (fun b => In b ["s"; "u"; "c"; "e"; "d"]%char) (list_ascii_of_string t) ->
  forall s : string, eq_ignore_case s t = String.eqb (toLowerCase s) t.
Proof.
  induction t as [| b t IH]; intros Ht s.
  - destruct s; reflexivity.
  - inversion Ht as [| ? ? Hb Ht']; subst.
    destruct s as [| a s]; [reflexivity |].
    cbn [eq_ignore_case toLowerCase String.eqb].
    rewrite (ascii_eq_ignore_case_lower a b Hb), (IH Ht' s).
    destruct (Ascii.eqb (ascii_toLowerCase a) b); reflexivity.
Qed.

Lemma succeeded_letters :
  Forall (fun b => In b ["s"; "u"; "c"; "e"; "d"]%char)
    (list_ascii_of_string "succeeded").
Proof.
  cbn [list_ascii_of_string]; repeat (apply Forall_cons_2; [cbn [In]; tauto |]). 
  apply Forall_nil_2.
Qed.

Lemma is_successful_pair_spec (report : Report) :
  is_successful_pair report = spec_successful report.
Proof.
  unfold is_successful_pair, spec_successful.
  destruct (state report) as [s |]; [| reflexivity].
  rewrite (eq_ignore_case_lower "succeeded" succeeded_letters). reflexivity.
Qed.

Lemma truthy_field_present (f : option string) :
  truthy_field f = bool_decide (is_Some (present f)).
Proof. destruct f as [[| a s] |]; reflexivity. Qed.

Lemma present_Some (f : option string) (s : string) :
  present f = Some s -> f = Some s /\ s <> "".
Proof. destruct f as [[| a s'] |]; simpl; intros [= <-]; split; congruence. Qed.

Lemma present_None (f : option string) :
  present f = None -> truthy_field f = false.
Proof. destruct f as [[| a s'] |]; simpl; congruence. Qed.

Lemma toUpperCase_empty (s : string) : toUpperCase s = "" -> s = "".
Proof. destruct s; simpl; congruence. Qed.

Lemma find_pointwise {A : Type} (f g : A -> bool) (l : list A) :
  (forall a, f a = g a) -> List.find f l = List.find g l.
Proof.
  intros Hfg. induction l as [| a l IH]; [reflexivity |].
  simpl. rewrite Hfg, IH. reflexivity.
Qed.

Lemma local_candidate_spec (reports : list Report) (pair : Report) :
  List.find
    (fun report =>
       String.eqb (type report) "local-candidate"
       && strict_eq_field (id report) (localCandidateId pair))
    reports
  = spec_local_candidate reports pair.
Proof.
  unfold spec_local_candidate. apply find_pointwise. intros r. f_equal.
  unfold strict_eq_field. destruct (localCandidateId pair) as [l |].
  - destruct (String.eqb_spec (id r) l) as [-> | Hne].
    + rewrite bool_decide_eq_true_2; reflexivity.
    + rewrite bool_decide_eq_false_2; [reflexivity | congruence].
  - rewrite bool_decide_eq_false_2; [reflexivity | congruence].
Qed.

Lemma pair_callback_spec (reports : list Report) (pair : Report) (found : string) :
  pair_callback reports pair found
  = match spec_pair_type reports pair with
    | Some t => (true, t)
    | None => (false, found)
    end.
Proof.
  unfold pair_callback, spec_pair_type. rewrite local_candidate_spec.
  destruct (spec_local_candidate reports pair) as [lc |]; [| reflexivity].
  unfold spec_candidate_type.
  destruct (present (relayProtocol lc)) as [relay |] eqn:Hrelay.
  - apply present_Some in Hrelay as [Hrelay ?].
    rewrite Hrelay. simpl.
    destruct (String.eqb_spec relay ""); [congruence |]. reflexivity.
  - rewrite (present_None _ Hrelay).
    destruct (present (protocol lc)) as [p |] eqn:Hp.
    + apply present_Some in Hp as [Hp Hne]. rewrite Hp. simpl.
      destruct (String.eqb_spec (toUpperCase p) "") as [He | He];
        [apply toUpperCase_empty in He; congruence | reflexivity].
    + destruct (protocol lc) as [[| a s] |]; simpl in *; congruence.
Qed.

Lemma some_pair_callback_spec (reports pairs : list Report) (found : string) :
  snd (some (pair_callback reports) pairs found)
  = match
      List.find (fun pair => bool_decide (is_Some (spec_pair_type reports pair)))
        pairs
    with
    | Some first => default found (spec_pair_type reports first)
    | None => found
    end.
Proof.
  induction pairs as [| pair pairs IH]; [reflexivity |].
  simpl. rewrite pair_callback_spec.
  destruct (spec_pair_type reports pair) as [t |] eqn:Ht.
  - rewrite bool_decide_eq_true_2 by eauto. rewrite Ht. reflexivity.
  - rewrite bool_decide_eq_false_2 by (intros [? ?]; congruence). exact IH.
Qed.

Lemma connectionType_of_spec (reports : list Report) :
  connectionType_of reports = spec_connectionType reports.
Proof.
  unfold connectionType_of, spec_connectionType.
  rewrite some_pair_callback_spec.
  rewrite (filter_ext is_successful_pair spec_successful)
    by (intros; apply is_successful_pair_spec).
  reflexivity.
Qed.

(** ** getCurrentConnectionType *)

Lemma body_on_connection (w : World) (h : nat) (c : MediaConnection) :
  webrtcMediaConnection (this w) = VObj h ->
  connections w !! h = Some c ->
  getCurrentConnectionType_body w
  = (Normal (connectionType_of (collected (stats c))), w).
Proof.
  intros Hconn Hc.
  unfold getCurrentConnectionType_body, bind, try_catch, bind,
    get_webrtcMediaConnection, await_getStats, bind, connection_of.
  rewrite Hconn, Hc. simpl. destruct (stats c); reflexivity.
Qed.

Lemma body_keeps_world (w : World) :
  exists t : string, getCurrentConnectionType_body w = (Normal t, w).
Proof.
  unfold getCurrentConnectionType_body, bind, try_catch, bind,
    get_webrtcMediaConnection, await_getStats, bind, connection_of.
  destruct (webrtcMediaConnection (this w)) as [| | b | n | s | h];
    simpl; eauto.
  destruct (connections w !! h) as [c |]; simpl; eauto.
  destruct (stats c); simpl; eauto.
Qed.

Lemma resume_keeps_world (p : nat) (w : World) :
  snd (getCurrentConnectionType_resume p w) = w.
Proof.
  unfold getCurrentConnectionType_resume.
  destruct (promises w !! p) as [[| | e] |]; try reflexivity.
  destruct (body_keeps_world w) as [t ->]. reflexivity.
Qed.

Lemma getCurrentConnectionType_keeps_this (w : World) :
  this (snd (getCurrentConnectionType w)) = this w.
Proof.
  unfold getCurrentConnectionType.
  pose proof (wait_keeps_this w) as Hthis.
  destruct (waitForMediaConnectionConnected w) as [[p | e] w']; simpl in *.
  - rewrite resume_keeps_world. exact Hthis.
  - exact Hthis.
Qed.

Lemma getCurrentConnectionType_connected (w : World) (h : nat) (c : MediaConnection) :
  webrtcMediaConnection (this w) = VObj h ->
  connections w !! h = Some c ->
  connectionState c = Connected ->
  getCurrentConnectionType w
  = (Settled (Normal (connectionType_of (collected (stats c)))),
     with_promises (promises w ++ [Fulfilled]) w).
Proof.
  intros Hconn Hc Hs. unfold getCurrentConnectionType.
  rewrite (wait_connected w h c Hconn Hc Hs).
  unfold getCurrentConnectionType_resume. simpl.
  rewrite list_lookup_middle by reflexivity.
  rewrite (body_on_connection _ h c) by assumption. reflexivity.
Qed.

(** C3. The connection type is that of the first pair, in the order of the
    reports, among the candidate pairs whose state is 'succeeded' whatever
    the case, whose local candidate is found and has a type: 'TURN-' and the
    relay protocol in upper case when the candidate has a relay protocol,
    else its protocol in upper case; it is 'unknown' when no such pair has a
    type.  This is what getCurrentConnectionType returns once the connection
    is connected and getStats() has given the reports. *)
Theorem getCurrentConnectionType_classifies
  (w : World) (h : nat) (c : MediaConnection) (reports : list Report)
  (Hconn : webrtcMediaConnection (this w) = VObj h)
  (Hc : connections w !! h = Some c)
  (Hstats : stats c = StatsResolves reports) :
  connectionType_of reports = spec_connectionType reports
  /\ (connectionState c = Connected ->
      fst (getCurrentConnectionType w)
      = Settled (Normal (spec_connectionType reports)))
  /\ (forall p : nat,
        promises w !! p = Some Fulfilled ->
        fst (getCurrentConnectionType_resume p w)
        = Settled (Normal (spec_connectionType reports))).
Proof.
  split; [apply connectionType_of_spec |]. split.
  - intros Hs. rewrite (getCurrentConnectionType_connected w h c Hconn Hc Hs).
    rewrite Hstats. simpl. f_equal. f_equal. apply connectionType_of_spec.
  - intros p Hp. unfold getCurrentConnectionType_resume. rewrite Hp.
    rewrite (body_on_connection w h c Hconn Hc), Hstats. simpl.
    f_equal. f_equal. apply connectionType_of_spec.
Qed.

(** C4. On a connected media connection, when getStats() throws or rejects,
    the error is caught: getCurrentConnectionType is fulfilled with
    'unknown', and the instance is as it was before the call, as it is after
    every call of the method. *)
Theorem getCurrentConnectionType_stats_failure
  (w : World) (h : nat) (c : MediaConnection) (e : Exn)
  (Hconn : webrtcMediaConnection (this w) = VObj h)
  (Hc : connections w !! h = Some c)
  (Hs : connectionState c = Connected)
  (Hstats : stats c = StatsThrows e \/ stats c = StatsRejects e) :
  fst (getCurrentConnectionType w) = Settled (Normal "unknown")
  /\ this (snd (getCurrentConnectionType w)) = this w
  /\ (forall w0 : World, this (snd (getCurrentConnectionType w0)) = this w0).
Proof.
  split; [| split; [| intros w0]]; try apply getCurrentConnectionType_keeps_this.
  rewrite (getCurrentConnectionType_connected w h c Hconn Hc Hs).
  destruct Hstats as [-> | ->]; reflexivity.
Qed.

(** ** The closures of a wait *)

Lemma settle_fst (p : nat) (s : PromiseState) (w : World) :
  settle p s w = (Normal tt, snd (settle p s w)).
Proof. unfold settle. destruct (promises w !! p) as [[| | e] |]; reflexivity. Qed.

Lemma settle_frame (p : nat) (s : PromiseState) (w : World) :
  this (snd (settle p s w)) = this w
  /\ connections (snd (settle p s w)) = connections w
  /\ timers (snd (settle p s w)) = timers w
  /\ clock (snd (settle p s w)) = clock w.
Proof. unfold settle. destruct (promises w !! p) as [[| | e] |]; repeat split. Qed.

Lemma settle_other (p q : nat) (s : PromiseState) (w : World) :
  p <> q -> promises (snd (settle p s w)) !! q = promises w !! q.
Proof.
  intros Hne. unfold settle.
  destruct (promises w !! p) as [[| | e] |]; simpl; try reflexivity.
  apply list_lookup_insert_ne. exact Hne.
Qed.

Lemma settle_pending (p : nat) (s : PromiseState) (w : World) :
  promises w !! p = Some Pending -> promises (snd (settle p s w)) !! p = Some s.
Proof.
  intros Hp. unfold settle. rewrite Hp. simpl.
  apply list_lookup_insert_eq. apply lookup_lt_Some in Hp. exact Hp.
Qed.

Lemma settle_settled (p : nat) (s s0 : PromiseState) (w : World) :
  promises w !! p = Some s0 -> s0 <> Pending -> snd (settle p s w) = w.
Proof.
  intros Hp Hs0. unfold settle. rewrite Hp.
  destruct s0; [congruence | reflexivity | reflexivity].
Qed.

Lemma listener_effect (k h : nat) (c : MediaConnection) (w : World) :
  webrtcMediaConnection (this w) = VObj h ->
  connections w !! h = Some c ->
  connectionStateListener k w
  = (Normal tt,
     if bool_decide (connectionState c = Connected) then
       snd (resolve k (detached k h c (with_timers (delete k (timers w)) w)))
     else w).
Proof.
  intros Hconn Hc.
  unfold connectionStateListener, bind at 1 2.
  unfold get_webrtcMediaConnection at 1, getConnectionState, bind at 1 2, connection_of.
  rewrite Hconn, Hc. unfold ret at 1. unfold bind at 1.
  rewrite (isConnected_on_connection w h c Hconn Hc).
  case_bool_decide; [| reflexivity].
  unfold bind, clearTimeout, get_webrtcMediaConnection, off, bind, connection_of.
  simpl. rewrite Hconn, Hc. simpl. unfold resolve. apply settle_fst.
Qed.

Lemma bailTimeout_effect (k h : nat) (c : MediaConnection) (w : World) :
  webrtcMediaConnection (this w) = VObj h ->
  connections w !! h = Some c ->
  bailTimeout k w = (Normal tt, snd (reject k (detached k h c w))).
Proof.
  intros Hconn Hc.
  unfold bailTimeout, bind, get_webrtcMediaConnection, off, bind, connection_of.
  rewrite Hconn, Hc. simpl. unfold reject. apply settle_fst.
Qed.

(** ** How the closures move the state of a wait *)

Lemma wait_state_clear (k k' h : nat) (r : bool) (t : option Z)
  (p : PromiseState) (w : World) :
  wait_state k h r t p w ->
  wait_state k h r (if decide (k' = k) then None else t) p
    (with_timers (delete k' (timers w)) w).
Proof.
  intros (Hconn & Hc & Ht & Hp). repeat split; try assumption. simpl.
  destruct (decide (k' = k)) as [-> | Hne].
  - apply lookup_delete_eq.
  - rewrite lookup_delete_ne by exact Hne. exact Ht.
Qed.

Lemma wait_state_detached (k k' h : nat) (c : MediaConnection) (r : bool)
  (t : option Z) (p : PromiseState) (w : World) :
  connections w !! h = Some c ->
  wait_state k h r t p w ->
  wait_state k h (if decide (k' = k) then false else r) t p (detached k' h c w).
Proof.
  intros Hc (Hconn & (c0 & Hc0 & Hr) & Ht & Hp).
  rewrite Hc in Hc0. injection Hc0 as <-.
  repeat split; try assumption.
  eexists. split; [simpl; apply lookup_insert_eq |]. simpl.
  rewrite list_elem_of_filter.
  destruct (decide (k' = k)) as [-> | Hne].
  - split; [intros [Hneq _]; congruence | discriminate].
  - rewrite <- Hr. split; [tauto |]. intros Hin. split; [congruence | exact Hin].
Qed.

Lemma wait_state_settle (k k' h : nat) (r : bool) (t : option Z)
  (p s : PromiseState) (w : World) :
  wait_state k h r t p w ->
  wait_state k h r t
    (if decide (k' = k) then match p with Pending => s | _ => p end else p)
    (snd (settle k' s w)).
Proof.
  intros (Hconn & Hc & Ht & Hp).
  destruct (settle_frame k' s w) as (Hthis & Hconns & Htimers & _).
  unfold wait_state. rewrite Hthis, Hconns, Htimers.
  repeat split; try assumption.
  destruct (decide (k' = k)) as [-> | Hne].
  - destruct p.
    + apply settle_pending. exact Hp.
    + rewrite (settle_settled k s Fulfilled w Hp); [exact Hp | discriminate].
    + rewrite (settle_settled k s (Rejected reason) w Hp); [exact Hp | discriminate].
  - rewrite settle_other by exact Hne. exact Hp.
Qed.

Lemma wait_state_connection (k h : nat) (r : bool) (t : option Z)
  (p : PromiseState) (w : World) :
  wait_state k h r t p w ->
  webrtcMediaConnection (this w) = VObj h
  /\ exists c, connections w !! h = Some c.
Proof. intros (Hconn & (c & Hc & _) & _). eauto. Qed.

(** The listener of another wait, or any listener once the wait is over,
    leaves the state of the wait as it is. *)
Lemma listener_keeps_wait_state (k k' h : nat) (r : bool) (t : option Z)
  (p : PromiseState) (w : World) :
  wait_state k h r t p w ->
  k' <> k \/ (r = false /\ t = None /\ p <> Pending) ->
  fst (connectionStateListener k' w) = Normal tt
  /\ wait_state k h r t p (snd (connectionStateListener k' w)).
Proof.
  intros Hw Hcase.
  destruct (wait_state_connection _ _ _ _ _ _ Hw) as (Hconn & c & Hc).
  rewrite (listener_effect k' h c w Hconn Hc). simpl. split; [reflexivity |].
  case_bool_decide; [| exact Hw].
  pose proof (wait_state_clear k k' h r t p w Hw) as H1.
  pose proof (wait_state_detached k k' h c _ _ p
                (with_timers (delete k' (timers w)) w) Hc H1) as H2.
  pose proof (wait_state_settle k k' h _ _ p Fulfilled _ H2) as H3.
  unfold resolve.
  destruct (decide (k' = k)) as [-> | Hne].
  - destruct Hcase as [? | (-> & -> & Hp)]; [congruence |].
    destruct p; [congruence | exact H3 | exact H3].
  - exact H3.
Qed.

(** The listener of the wait, called while the connection is connected and
    the promise is pending, clears the timer, removes itself and fulfils
    the promise. *)
Lemma listener_resolves (k h : nat) (r : bool) (t : option Z) (w : World) :
  wait_state k h r t Pending w ->
  connection_in_state h Connected w ->
  fst (connectionStateListener k w) = Normal tt
  /\ wait_state k h false None Fulfilled (snd (connectionStateListener k w)).
Proof.
  intros Hw Hs.
  destruct (wait_state_connection _ _ _ _ _ _ Hw) as (Hconn & c & Hc).
  rewrite (listener_effect k h c w Hconn Hc). simpl. split; [reflexivity |].
  destruct Hs as (c' & Hc' & Hs). rewrite Hc in Hc'. injection Hc' as <-.
  rewrite bool_decide_eq_true_2 by exact Hs.
  pose proof (wait_state_clear k k h r t Pending w Hw) as H1.
  pose proof (wait_state_detached k k h c _ _ Pending
                (with_timers (delete k (timers w)) w) Hc H1) as H2.
  pose proof (wait_state_settle k k h _ _ Pending Fulfilled _ H2) as H3.
  destruct (decide (k = k)); [exact H3 | congruence].
Qed.

Lemma listener_without_connection (k : nat) (w : World) :
  (forall h c, webrtcMediaConnection (this w) = VObj h ->
               connections w !! h = Some c -> False) ->
  connectionStateListener k w = (Throw TypeError, w).
Proof.
  intros Hnone.
  unfold connectionStateListener, bind at 1 2.
  unfold get_webrtcMediaConnection at 1, getConnectionState, bind at 1 2,
    connection_of.
  destruct (webrtcMediaConnection (this w)) as [| | b | n | str | h];
    try reflexivity.
  destruct (connections w !! h) as [c |] eqn:Hc; [| reflexivity].
  exfalso. eapply Hnone; eauto.
Qed.

Lemma listener_keeps_connectionState (k h : nat) (w : World) (s : ConnectionState) :
  connection_in_state h s w ->
  connection_in_state h s (snd (connectionStateListener k w)).
Proof.
  unfold connection_in_state. intros (c & Hc & Hs).
  destruct (webrtcMediaConnection (this w)) as [| | b | n | str | h0] eqn:Hconn;
    try (rewrite listener_without_connection by (intros; congruence);
         simpl; eauto).
  destruct (connections w !! h0) as [c0 |] eqn:Hc0;
    [| rewrite listener_without_connection by (intros; congruence);
       simpl; eauto].
  rewrite (listener_effect k h0 c0 w Hconn Hc0). simpl.
  case_bool_decide; [| eauto].
  destruct (settle_frame k Fulfilled
              (detached k h0 c0 (with_timers (delete k (timers w)) w)))
    as (_ & Hconns & _).
  unfold resolve. rewrite Hconns. simpl.
  destruct (decide (h0 = h)) as [-> | Hne].
  - rewrite lookup_insert_eq. rewrite Hc in Hc0. injection Hc0 as <-. eauto.
  - rewrite lookup_insert_ne by exact Hne. eauto.
Qed.

Lemma bailTimeout_frame (k : nat) (w : World) :
  clock (snd (bailTimeout k w)) = clock w
  /\ this (snd (bailTimeout k w)) = this w
  /\ forall (h : nat) (s : ConnectionState),
       connection_in_state h s w ->
       connection_in_state h s (snd (bailTimeout k w)).
Proof.
  destruct (webrtcMediaConnection (this w)) as [| | b | n | str | h0] eqn:Hconn;
    try (unfold bailTimeout, bind, get_webrtcMediaConnection, off, bind,
           connection_of; rewrite Hconn; simpl; tauto).
  destruct (connections w !! h0) as [c0 |] eqn:Hc0.
  - rewrite (bailTimeout_effect k h0 c0 w Hconn Hc0). simpl.
    destruct (settle_frame k (Rejected (Thrown VUndefined)) (detached k h0 c0 w))
      as (Hthis & Hconns & _ & Hclock).
    unfold reject, connection_in_state. rewrite Hthis, Hconns, Hclock. simpl.
    repeat split. intros h s (c & Hc & Hs).
    destruct (decide (h0 = h)) as [-> | Hne].
    + rewrite lookup_insert_eq. rewrite Hc in Hc0. injection Hc0 as <-. eauto.
    + rewrite lookup_insert_ne by exact Hne. eauto.
  - unfold bailTimeout, bind, get_webrtcMediaConnection, off, bind,
      connection_of. rewrite Hconn, Hc0. simpl. tauto.
Qed.

Lemma fire_frame (k : nat) (w : World) :
  clock (fire k w) = clock w
  /\ this (fire k w) = this w
  /\ forall (h : nat) (s : ConnectionState),
       connection_in_state h s w -> connection_in_state h s (fire k w).
Proof.
  unfold fire. destruct (timers w !! k); [| tauto].
  apply (bailTimeout_frame k (with_timers (delete k (timers w)) w)).
Qed.

Lemma fire_all_frame (ks : list nat) (w : World) :
  clock (fire_all ks w) = clock w
  /\ this (fire_all ks w) = this w
  /\ forall (h : nat) (s : ConnectionState),
       connection_in_state h s w -> connection_in_state h s (fire_all ks w).
Proof.
  revert w. induction ks as [| k ks IH]; intros w; simpl; [tauto |].
  destruct (IH (fire k w)) as (Hclock & Hthis & Hstate).
  destruct (fire_frame k w) as (Hclock' & Hthis' & Hstate').
  rewrite Hclock, Hthis. repeat split; auto.
Qed.

(** The timer of another wait, or any timer once the wait is over, leaves
    the state of the wait as it is. *)
Lemma fire_keeps_wait_state (k k' h : nat) (r : bool) (t : option Z)
  (p : PromiseState) (w : World) :
  wait_state k h r t p w ->
  k' <> k \/ t = None ->
  wait_state k h r t p (fire k' w).
Proof.
  intros Hw Hcase. unfold fire.
  destruct (timers w !! k') as [due' |] eqn:Hk'; [| exact Hw].
  assert (Hne : k' <> k).
  { destruct Hcase as [? | ->]; [assumption |].
    intros ->. destruct Hw as (_ & _ & Ht & _). congruence. }
  destruct (wait_state_connection _ _ _ _ _ _ Hw) as (Hconn & c & Hc).
  rewrite (bailTimeout_effect k' h c (with_timers (delete k' (timers w)) w) Hconn Hc).
  simpl.
  pose proof (wait_state_clear k k' h r t p w Hw) as H1.
  pose proof (wait_state_detached k k' h c _ _ p
                (with_timers (delete k' (timers w)) w) Hc H1) as H2.
  pose proof (wait_state_settle k k' h _ _ p (Rejected (Thrown VUndefined)) _ H2)
    as H3.
  destruct (decide (k' = k)); [congruence | exact H3].
Qed.

(** The timer of the wait, when it fires, removes the listener and rejects
    the pending promise. *)
Lemma fire_rejects (k h : nat) (r : bool) (due : Z) (w : World) :
  wait_state k h r (Some due) Pending w ->
  wait_state k h false None (Rejected (Thrown VUndefined)) (fire k w).
Proof.
  intros Hw. unfold fire.
  destruct (wait_state_connection _ _ _ _ _ _ Hw) as (Hconn & c & Hc).
  destruct Hw as (Hconn' & Hreg & Ht & Hp). rewrite Ht.
  rewrite (bailTimeout_effect k h c (with_timers (delete k (timers w)) w) Hconn Hc).
  simpl.
  assert (Hw : wait_state k h r (Some due) Pending w) by (repeat split; assumption).
  pose proof (wait_state_clear k k h r _ Pending w Hw) as H1.
  pose proof (wait_state_detached k k h c _ _ Pending
                (with_timers (delete k (timers w)) w) Hc H1) as H2.
  pose proof (wait_state_settle k k h _ _ Pending (Rejected (Thrown VUndefined)) _ H2)
    as H3.
  destruct (decide (k = k)); [exact H3 | congruence].
Qed.

Lemma fire_all_keeps_wait_state (ks : list nat) (k h : nat) (r : bool)
  (t : option Z) (p : PromiseState) (w : World) :
  wait_state k h r t p w ->
  ~ In k ks \/ t = None ->
  wait_state k h r t p (fire_all ks w).
Proof.
  revert w. induction ks as [| k' ks IH]; intros w Hw Hcase; [exact Hw |].
  simpl. apply IH.
  - apply fire_keeps_wait_state; [exact Hw |].
    destruct Hcase as [Hnotin | ->]; [left | right; reflexivity].
    intros ->. apply Hnotin. left. reflexivity.
  - destruct Hcase as [Hnotin | ->]; [left | right; reflexivity].
    intros Hin. apply Hnotin. right. exact Hin.
Qed.

Lemma fire_all_rejects (ks : list nat) (k h : nat) (r : bool) (due : Z)
  (w : World) :
  In k ks ->
  wait_state k h r (Some due) Pending w ->
  wait_state k h false None (Rejected (Thrown VUndefined)) (fire_all ks w).
Proof.
  revert w. induction ks as [| k' ks IH]; intros w Hin Hw; [destruct Hin |].
  simpl. destruct (decide (k' = k)) as [-> | Hne].
  - apply fire_all_keeps_wait_state; [| right; reflexivity].
    apply (fire_rejects k h r due w Hw).
  - destruct Hin as [? | Hin]; [congruence |].
    apply IH; [exact Hin |].
    apply fire_keeps_wait_state; [exact Hw | left; exact Hne].
Qed.

(** ** The timers that are due *)

Lemma in_insert_timer (x a : nat * Z) (l : list (nat * Z)) :
  In x (insert_timer a l) <-> x = a \/ In x l.
Proof.
  induction l as [| b l IH]; simpl; [intuition congruence |].
  destruct (timer_leb a b); simpl; [intuition congruence |].
  rewrite IH. intuition congruence.
Qed.

Lemma in_sorted_timers (x : nat * Z) (l : list (nat * Z)) :
  In x (foldr insert_timer [] l) <-> In x l.
Proof.
  induction l as [| a l IH]; simpl; [tauto |].
  rewrite in_insert_timer, IH. intuition congruence.
Qed.

Lemma in_due_timers (k : nat) (w : World) :
  In k (due_timers w) <-> exists t : Z, timers w !! k = Some t /\ t <= clock w.
Proof.
  unfold due_timers. rewrite in_map_iff. split.
  - intros ([k' t] & <- & Hin). simpl.
    apply in_sorted_timers, filter_In in Hin as [Hin Hdue].
    apply list_elem_of_In, elem_of_map_to_list in Hin.
    exists t. split; [exact Hin |]. simpl in Hdue. lia.
  - intros (t & Ht & Hdue). exists (k, t). split; [reflexivity |].
    apply in_sorted_timers, filter_In. split.
    + apply list_elem_of_In, elem_of_map_to_list. exact Ht.
    + simpl. lia.
Qed.

(** ** The emission of an event *)

Lemma call_listeners_keeps_wait_state (ks : list nat) (k h : nat) (r : bool)
  (t : option Z) (p : PromiseState) (w : World) :
  wait_state k h r t p w ->
  ~ In k ks \/ (r = false /\ t = None /\ p <> Pending) ->
  fst (call_listeners ks w) = Normal tt
  /\ wait_state k h r t p (snd (call_listeners ks w)).
Proof.
  revert w. induction ks as [| k' ks IH]; intros w Hw Hcase; [split; trivial |].
  simpl. unfold bind.
  assert (Hk' : k' <> k \/ (r = false /\ t = None /\ p <> Pending)).
  { destruct Hcase as [Hnotin | ?]; [left | right; assumption].
    intros ->. apply Hnotin. left. reflexivity. }
  destruct (listener_keeps_wait_state k k' h r t p w Hw Hk') as (Hfst & Hw').
  destruct (connectionStateListener k' w) as [[[] | e] w']; simpl in *;
    [| discriminate].
  apply IH; [exact Hw' |].
  destruct Hcase as [Hnotin | ?]; [left | right; assumption].
  intros Hin. apply Hnotin. right. exact Hin.
Qed.

Lemma call_listeners_resolves (ks : list nat) (k h : nat) (r : bool)
  (t : option Z) (w : World) :
  In k ks ->
  wait_state k h r t Pending w ->
  connection_in_state h Connected w ->
  wait_state k h false None Fulfilled (snd (call_listeners ks w)).
Proof.
  revert w. induction ks as [| k' ks IH]; intros w Hin Hw Hs; [destruct Hin |].
  simpl. unfold bind.
  destruct (decide (k' = k)) as [-> | Hne].
  - destruct (listener_resolves k h r t w Hw Hs) as (Hfst & Hw').
    destruct (connectionStateListener k w) as [[[] | e] w']; simpl in *;
      [| discriminate].
    apply call_listeners_keeps_wait_state; [exact Hw' |].
    right. repeat split. discriminate.
  - destruct Hin as [? | Hin]; [congruence |].
    destruct (listener_keeps_wait_state k k' h r t Pending w Hw (or_introl Hne))
      as (Hfst & Hw').
    pose proof (listener_keeps_connectionState k' h w Connected Hs) as Hs'.
    destruct (connectionStateListener k' w) as [[[] | e] w']; simpl in *;
      [| discriminate].
    apply IH; assumption.
Qed.

(** While the connection of the instance is not connected, the listeners
    do nothing. *)
Lemma call_listeners_idle (ks : list nat) (h : nat) (s : ConnectionState)
  (w : World) :
  webrtcMediaConnection (this w) = VObj h ->
  connection_in_state h s w ->
  s <> Connected ->
  call_listeners ks w = (Normal tt, w).
Proof.
  intros Hconn (c & Hc & Hs) Hne.
  induction ks as [| k ks IH]; [reflexivity |].
  simpl. unfold bind. rewrite (listener_effect k h c w Hconn Hc).
  rewrite bool_decide_eq_false_2 by congruence. exact IH.
Qed.

Lemma in_emitted (k : nat) (ev : Event) (ls : list (Event * nat)) :
  (ev, k) ∈ ls ->
  In k (map snd (List.filter (fun l => bool_decide (fst l = ev)) ls)).
Proof.
  intros Hin. apply in_map_iff. exists (ev, k). split; [reflexivity |].
  apply filter_In. split; [apply list_elem_of_In; exact Hin |].
  simpl. apply bool_decide_eq_true_2. reflexivity.
Qed.

(** ** The steps of the host *)

Lemma run_app (tr1 tr2 : list HostEvent) (w : World) :
  run (tr1 ++ tr2) w = run tr2 (run tr1 w).
Proof. revert w. induction tr1 as [| e tr1 IH]; intros w; simpl; auto. Qed.

Lemma setter_keeps_connection (c : SetterCall) (o : MediaProperties) (h : nat) :
  (designated c = A_webrtcMediaConnection -> passed c = AJs (VObj h)) ->
  webrtcMediaConnection o = VObj h ->
  webrtcMediaConnection (run_setter c o) = VObj h.
Proof.
  destruct c; simpl; intros Hd Ho; try exact Ho;
    specialize (Hd eq_refl); congruence.
Qed.

Lemma wait_state_with_connectionState (k h : nat) (r : bool) (t : option Z)
  (p : PromiseState) (c : MediaConnection) (s : ConnectionState) (h' : nat)
  (w : World) :
  connections w !! h' = Some c ->
  wait_state k h r t p w ->
  wait_state k h r t p
    (with_connections (<[h' := with_connectionState s c]> (connections w)) w).
Proof.
  intros Hc' (Hconn & (c0 & Hc0 & Hr) & Ht & Hp).
  repeat split; try assumption. simpl.
  destruct (decide (h' = h)) as [-> | Hne].
  - rewrite lookup_insert_eq. rewrite Hc' in Hc0. injection Hc0 as <-.
    eexists. split; [reflexivity | exact Hr].
  - rewrite lookup_insert_ne by exact Hne. eauto.
Qed.

Lemma step_keeps_pending_wait (e : HostEvent) (k h : nat) (due : Z) (w : World) :
  pending_wait k h due w ->
  quiet h e ->
  in_time (due - clock w) [e] ->
  pending_wait k h due (step e w)
  /\ clock (step e w) = clock w + elapsed [e].
Proof.
  intros (Hw & s & Hs & Hstate) Hquiet Htime.
  destruct (wait_state_connection _ _ _ _ _ _ Hw) as (Hconn & c & Hc).
  destruct e as [h' s' | d | call |]; simpl in *.
  - (* the connection h' changes its state *)
    destruct (connections w !! h') as [c' |] eqn:Hc';
      [| split; [split; eauto | lia]].
    set (w1 := with_connections _ w).
    assert (Hw1 : wait_state k h true (Some due) Pending w1)
      by (apply wait_state_with_connectionState; assumption).
    assert (Hstate1 : exists s1, s1 <> Connected /\ connection_in_state h s1 w1).
    { unfold connection_in_state, w1. simpl.
      destruct (decide (h' = h)) as [-> | Hne].
      - exists s'. split; [auto |]. rewrite lookup_insert_eq. eauto.
      - exists s. split; [exact Hs |]. rewrite lookup_insert_ne by exact Hne.
        exact Hstate. }
    destruct Hstate1 as (s1 & Hs1 & Hstate1).
    unfold emit. destruct (connections w1 !! h') as [c1 |]; simpl.
    + rewrite (call_listeners_idle _ h s1 w1 Hconn Hstate1 Hs1). simpl.
      split; [split; eauto | unfold w1; simpl; lia].
    + split; [split; eauto | unfold w1; simpl; lia].
  - (* time passes *)
    destruct Htime as [Hd _].
    set (w1 := with_clock _ w).
    destruct (fire_all_frame (due_timers w1) w1) as (Hclock & _ & Hkeep).
    split; [split | rewrite Hclock; unfold w1; simpl; lia].
    + apply fire_all_keeps_wait_state; [exact Hw |]. left.
      intros Hin. apply in_due_timers in Hin as (t & Ht & Hdue).
      destruct Hw as (_ & _ & Ht' & _). unfold w1 in Ht, Hdue. simpl in Ht, Hdue.
      rewrite Ht' in Ht. injection Ht as <-. lia.
    + exists s. split; [exact Hs |]. apply Hkeep. exact Hstate.
  - (* a setter *)
    split; [| lia]. split; [| eauto].
    destruct Hw as (_ & Hreg & Ht & Hp). repeat split; try assumption.
    simpl. apply setter_keeps_connection; assumption.
  - (* another wait *)
    destruct Hstate as (c0 & Hc0 & Hs0). rewrite Hc in Hc0. injection Hc0 as <-.
    rewrite (wait_not_connected w h c Hconn Hc) by congruence. simpl.
    split; [| lia].
    destruct Hw as (_ & (c0 & Hc0 & Hreg) & Ht & Hp).
    rewrite Hc in Hc0. injection Hc0 as <-.
    pose proof (lookup_lt_Some _ _ _ Hp) as Hlt.
    split.
    + repeat split; simpl.
      * exact Hconn.
      * eexists. split; [apply lookup_insert_eq |]. simpl.
        rewrite elem_of_app. rewrite <- Hreg. tauto.
      * rewrite lookup_insert_ne by lia. exact Ht.
      * rewrite lookup_app_l by exact Hlt. exact Hp.
    + exists s. split; [exact Hs |]. unfold connection_in_state. simpl.
      rewrite lookup_insert_eq. eexists. split; [reflexivity | exact Hs0].
Qed.

Lemma run_keeps_pending_wait (tr : list HostEvent) (k h : nat) (due : Z)
  (w : World) :
  pending_wait k h due w ->
  Forall (quiet h) tr ->
  in_time (due - clock w) tr ->
  pending_wait k h due (run tr w)
  /\ clock (run tr w) = clock w + elapsed tr.
Proof.
  revert w. induction tr as [| e tr IH]; intros w Hw Hquiet Htime.
  - simpl. split; [exact Hw | lia].
  - apply Forall_cons in Hquiet as [He Hquiet].
    assert (Hstep : in_time (due - clock w) [e])
      by (destruct e; simpl in *; tauto).
    destruct (step_keeps_pending_wait e k h due w Hw He Hstep) as (Hw' & Hclock).
    simpl run. destruct (IH (step e w) Hw' Hquiet) as (Hw'' & Hclock').
    + rewrite Hclock. destruct e; simpl in *; try tauto;
        try (replace (due - (clock w + 0)) with (due - clock w) by lia; tauto).
      destruct Htime as [_ Htime].
      replace (due - (clock w + (Z.of_N d + 0))) with (due - clock w - Z.of_N d)
        by lia. exact Htime.
    + split; [exact Hw'' |]. rewrite Hclock', Hclock.
      destruct e; simpl; lia.
Qed.

(** ** The wait *)

Lemma elapsed_nonneg (tr : list HostEvent) : 0 <= elapsed tr.
Proof. induction tr as [| [] tr IH]; simpl; lia. Qed.

(** A trace that takes less time than the budget is in time. *)
Lemma in_time_of_elapsed (tr : list HostEvent) (budget : Z) :
  elapsed tr < budget -> in_time budget tr.
Proof.
  revert budget. induction tr as [| e tr IH]; intros budget Hlt; [exact I |].
  pose proof (elapsed_nonneg tr).
  destruct e; simpl in *; try (apply IH; lia).
  split; [lia | apply IH; lia].
Qed.

Lemma waiting_world_pending (w : World) (h : nat) (c : MediaConnection) :
  webrtcMediaConnection (this w) = VObj h ->
  connections w !! h = Some c ->
  connectionState c <> Connected ->
  pending_wait (length (promises w)) h (clock w + Z.max 0 PC_BAIL_TIMEOUT)
    (waiting_world h c w).
Proof.
  intros Hconn Hc Hs. split; [repeat split; simpl |].
  - exact Hconn.
  - eexists. split; [apply lookup_insert_eq |]. simpl.
    rewrite elem_of_app, list_elem_of_singleton. tauto.
  - apply lookup_insert_eq.
  - apply list_lookup_middle. reflexivity.
  - exists (connectionState c). split; [exact Hs |].
    unfold connection_in_state. simpl. rewrite lookup_insert_eq. eauto.
Qed.

Lemma pending_wait_resolves (k h : nat) (due : Z) (w : World) :
  pending_wait k h due w ->
  wait_state k h false None Fulfilled (step (StateChanged h Connected) w).
Proof.
  intros (Hw & _).
  destruct (wait_state_connection _ _ _ _ _ _ Hw) as (Hconn & c & Hc).
  simpl. rewrite Hc.
  set (w1 := with_connections _ w).
  assert (Hw1 : wait_state k h true (Some due) Pending w1)
    by (apply wait_state_with_connectionState; assumption).
  assert (Hc1 : connections w1 !! h = Some (with_connectionState Connected c))
    by apply lookup_insert_eq.
  unfold emit. rewrite Hc1.
  apply (call_listeners_resolves _ k h true (Some due) w1).
  - apply in_emitted. destruct Hw as (_ & (c0 & Hc0 & Hreg) & _).
    rewrite Hc in Hc0. injection Hc0 as <-. simpl. apply Hreg. reflexivity.
  - exact Hw1.
  - eexists. split; [exact Hc1 | reflexivity].
Qed.

Lemma pending_wait_rejects (k h : nat) (due : Z) (d : N) (w : World) :
  pending_wait k h due w ->
  due <= clock w + Z.of_N d ->
  wait_state k h false None (Rejected (Thrown VUndefined)) (step (Elapse d) w).
Proof.
  intros (Hw & _) Hdue. simpl.
  set (w1 := with_clock _ w).
  assert (Hw1 : wait_state k h true (Some due) Pending w1)
    by (destruct Hw as (? & ? & ? & ?); repeat split; assumption).
  apply (fire_all_rejects _ k h true due w1); [| exact Hw1].
  apply in_due_timers. exists due. split; [| exact Hdue].
  destruct Hw as (_ & _ & Ht & _). exact Ht.
Qed.

Lemma wait_state_detached_facts (k h : nat) (p : PromiseState) (w : World) :
  wait_state k h false None p w ->
  promises w !! k = Some p
  /\ timers w !! k = None
  /\ forall c : MediaConnection,
       connections w !! h = Some c ->
       (CONNECTION_STATE_CHANGED, k) ∉ listeners c.
Proof.
  intros (_ & (c0 & Hc0 & Hreg) & Ht & Hp). repeat split; try assumption.
  intros c Hc Hin. rewrite Hc in Hc0. injection Hc0 as <-.
  apply Hreg in Hin. discriminate.
Qed.

(** C1. With a media connection set, the call returns a promise that is
    already fulfilled when the connection is connected, and then no
    listener and no timer is registered.  Otherwise the promise is pending,
    and stays so while the connection is not connected, until a
    CONNECTION_STATE_CHANGED event arrives with the connection connected:
    that event fulfils it. *)
Theorem wait_resolves_when_connected
  (w : World) (h : nat) (c : MediaConnection)
  (Hconn : webrtcMediaConnection (this w) = VObj h)
  (Hc : connections w !! h = Some c) :
  (connectionState c = Connected ->
   exists (p : nat) (w' : World),
     waitForMediaConnectionConnected w = (Normal p, w')
     /\ promises w' !! p = Some Fulfilled
     /\ connections w' = connections w
     /\ timers w' = timers w)
  /\ (connectionState c <> Connected ->
      exists (p : nat) (w' : World),
        waitForMediaConnectionConnected w = (Normal p, w')
        /\ forall tr : list HostEvent,
             Forall (quiet h) tr ->
             in_time (Z.max 0 PC_BAIL_TIMEOUT) tr ->
             promises (run tr w') !! p = Some Pending
             /\ promises (run (tr ++ [StateChanged h Connected]) w') !! p
                = Some Fulfilled).
Proof.
  split; intros Hs.
  - eexists _, _. split; [apply (wait_connected w h c Hconn Hc Hs) |].
    simpl. split; [apply list_lookup_middle; reflexivity | split; reflexivity].
  - eexists _, _. split; [apply (wait_not_connected w h c Hconn Hc Hs) |].
    intros tr Hquiet Htime.
    pose proof (waiting_world_pending w h c Hconn Hc Hs) as Hpending.
    destruct (run_keeps_pending_wait tr _ h _ _ Hpending Hquiet) as (Hrun & _).
    { simpl. replace (clock w + Z.max 0 PC_BAIL_TIMEOUT - clock w)
        with (Z.max 0 PC_BAIL_TIMEOUT) by lia. exact Htime. }
    split.
    + destruct Hrun as ((_ & _ & _ & Hp) & _). exact Hp.
    + rewrite run_app. simpl.
      apply pending_wait_resolves in Hrun.
      destruct Hrun as (_ & _ & _ & Hp). exact Hp.
Qed.

(** C2, amended.  The wait is bounded as long as the instance keeps the
    media connection on which the wait began: no unsetPeerConnection and no
    setMediaPeerConnection with another connection before the wait ends.
    When the connection is not connected at the call, the promise is
    pending with its listener registered and its timer set.  If the
    connection does not become connected before PC_BAIL_TIMEOUT has passed,
    the promise is rejected when that time has passed, and the listener is
    then no longer registered; when instead the wait succeeds, the listener
    is removed as well and the timer is cleared. *)
Theorem wait_is_bounded
  (w : World) (h : nat) (c : MediaConnection)
  (Hconn : webrtcMediaConnection (this w) = VObj h)
  (Hc : connections w !! h = Some c)
  (Hs : connectionState c <> Connected) :
  exists (p : nat) (w' : World),
    waitForMediaConnectionConnected w = (Normal p, w')
    /\ (exists c' : MediaConnection,
          connections w' !! h = Some c'
          /\ (CONNECTION_STATE_CHANGED, p) ∈ listeners c'
          /\ timers w' !! p = Some (clock w + Z.max 0 PC_BAIL_TIMEOUT))
    /\ (forall (tr : list HostEvent) (d : N),
          Forall (quiet h) tr ->
          in_time (Z.max 0 PC_BAIL_TIMEOUT) tr ->
          Z.max 0 PC_BAIL_TIMEOUT <= elapsed tr + Z.of_N d ->
          let w'' := run (tr ++ [Elapse d]) w' in
          promises w'' !! p = Some (Rejected (Thrown VUndefined))
          /\ timers w'' !! p = None
          /\ forall c'' : MediaConnection,
               connections w'' !! h = Some c'' ->
               (CONNECTION_STATE_CHANGED, p) ∉ listeners c'')
    /\ (forall tr : list HostEvent,
          Forall (quiet h) tr ->
          in_time (Z.max 0 PC_BAIL_TIMEOUT) tr ->
          let w'' := run (tr ++ [StateChanged h Connected]) w' in
          promises w'' !! p = Some Fulfilled
          /\ timers w'' !! p = None
          /\ forall c'' : MediaConnection,
               connections w'' !! h = Some c'' ->
               (CONNECTION_STATE_CHANGED, p) ∉ listeners c'').
Proof.
  eexists _, _. split; [apply (wait_not_connected w h c Hconn Hc Hs) |].
  pose proof (waiting_world_pending w h c Hconn Hc Hs) as Hpending.
  assert (Hrun : forall tr,
             Forall (quiet h) tr -> in_time (Z.max 0 PC_BAIL_TIMEOUT) tr ->
             pending_wait (length (promises w)) h
               (clock w + Z.max 0 PC_BAIL_TIMEOUT) (run tr (waiting_world h c w))
             /\ clock (run tr (waiting_world h c w)) = clock w + elapsed tr).
  { intros tr Hquiet Htime.
    apply (run_keeps_pending_wait tr _ h _ _ Hpending Hquiet).
    simpl. replace (clock w + Z.max 0 PC_BAIL_TIMEOUT - clock w)
      with (Z.max 0 PC_BAIL_TIMEOUT) by lia. exact Htime. }
  split; [| split].
  - destruct Hpending as ((_ & (c' & Hc' & Hreg) & Ht & _) & _).
    exists c'. split; [exact Hc' |]. split; [apply Hreg; reflexivity | exact Ht].
  - intros tr d Hquiet Htime Hlate w''. unfold w''. rewrite run_app. simpl run.
    destruct (Hrun tr Hquiet Htime) as (Hw & Hclock).
    apply wait_state_detached_facts.
    apply (pending_wait_rejects _ h _ d _ Hw). rewrite Hclock. lia.
  - intros tr Hquiet Htime w''. unfold w''. rewrite run_app. simpl run.
    destruct (Hrun tr Hquiet Htime) as (Hw & _).
    apply wait_state_detached_facts.
    apply (pending_wait_resolves _ h _ _ Hw).
Qed.

(** * Further properties *)

(** ** The fields *)


(** X2. Two setters for different attributes can be called in either
    order, and of two calls for the same attribute the second one decides:
    nothing of the first call is kept. *)
Theorem setters_compose (c1 c2 : SetterCall) (this : MediaProperties) :
  (designated c1 <> designated c2 ->
   run_setter c2 (run_setter c1 this) = run_setter c1 (run_setter c2 this))
  /\ (designated c1 = designated c2 ->
      run_setter c2 (run_setter c1 this) = run_setter c2 this).
Proof.
  split; intros Hd; destruct c1, c2; simpl in Hd;
    try reflexivity; try congruence; discriminate.
Qed.

(** X3. unsetRemoteMedia changes the remote audio and video streams only,
    and unsetRemoteStreams these two and the property remoteShareStream;
    both give the same state when called again.  They set the streams to
    null, not to the undefined of a new instance. *)
Theorem unsetRemoteStreams_frame (this : MediaProperties) (a : Attr)
  (Haudio : a <> A_remoteAudioStream) (Hvideo : a <> A_remoteVideoStream) :
  remoteAudioStream (unsetRemoteMedia this) = VNull
  /\ remoteVideoStream (unsetRemoteMedia this) = VNull
  /\ remoteAudioStream (unsetRemoteStreams this) = VNull
  /\ remoteVideoStream (unsetRemoteStreams this) = VNull
  /\ remoteShareStream (unsetRemoteStreams this) = VNull
  /\ read a (unsetRemoteMedia this) = read a this
  /\ (a <> A_remoteShareStream -> read a (unsetRemoteStreams this) = read a this)
  /\ unsetRemoteMedia (unsetRemoteMedia this) = unsetRemoteMedia this
  /\ unsetRemoteStreams (unsetRemoteStreams this) = unsetRemoteStreams this
  /\ unsetRemoteMedia (unsetRemoteStreams this) = unsetRemoteStreams this
  /\ remoteAudioStream (unsetRemoteMedia this)
     <> remoteAudioStream new_MediaProperties
  /\ remoteVideoStream (unsetRemoteMedia this)
     <> remoteVideoStream new_MediaProperties.
Proof.
  do 5 (split; [reflexivity |]).
  split; [destruct a; try reflexivity; congruence |].
  split; [intros Hshare; destruct a; try reflexivity; congruence |].
  repeat split; discriminate.
Qed.

(** X4. getVideoDeviceId returns either null or a truthy value, never
    another falsy one; after setVideoDeviceId with a truthy device id it
    returns that id. *)
Theorem getVideoDeviceId_round_trip (this : MediaProperties) :
  (getVideoDeviceId this = VNull \/ truthy (getVideoDeviceId this) = true)
  /\ (forall deviceId : JsVal,
        truthy deviceId = true ->
        getVideoDeviceId (setVideoDeviceId deviceId this) = deviceId)
  /\ (truthy (videoDeviceId this) = true ->
      getVideoDeviceId this = videoDeviceId this).
Proof.
  unfold getVideoDeviceId, js_or. split; [| split].
  - destruct (truthy (videoDeviceId this)) eqn:Ht; auto.
  - intros deviceId Ht. simpl. rewrite Ht. reflexivity.
  - intros Ht. rewrite Ht. reflexivity.
Qed.

(** X5. hasLocalShareStream depends on the two share streams only: a
    setter for another attribute does not change it, a truthy share stream
    makes it true whatever the other one is, and clearing one of the two
    leaves it true exactly when the other is truthy. *)
Theorem hasLocalShareStream_setters (this : MediaProperties) :
  (forall c : SetterCall,
      designated c <> A_shareVideoStream ->
      designated c <> A_shareAudioStream ->
      hasLocalShareStream (run_setter c this) = hasLocalShareStream this)
  /\ (forall v : JsVal,
        truthy v = true ->
        hasLocalShareStream (setLocalShareVideoStream v this) = true
        /\ hasLocalShareStream (setLocalShareAudioStream v this) = true)
  /\ (forall v : JsVal,
        truthy v = false ->
        hasLocalShareStream (setLocalShareVideoStream v this)
        = truthy (shareAudioStream this)
        /\ hasLocalShareStream (setLocalShareAudioStream v this)
           = truthy (shareVideoStream this)).
Proof.
  unfold hasLocalShareStream. split; [| split].
  - intros c Hv Ha. destruct c; simpl in *; try reflexivity; congruence.
  - intros v Hv. simpl. rewrite !truthy_js_or, Hv.
    split; [apply orb_true_r | reflexivity].
  - intros v Hv. simpl. rewrite !truthy_js_or, Hv.
    split; [apply orb_false_r | reflexivity].
Qed.

(** ** The classification, further *)

Lemma ascii_toUpperCase_idempotent (a : ascii) :
  ascii_toUpperCase (ascii_toUpperCase a) = ascii_toUpperCase a.
Proof.
  assert (H : forallb
                (fun a => Ascii.eqb (ascii_toUpperCase (ascii_toUpperCase a))
                            (ascii_toUpperCase a))
                (map ascii_of_nat (seq 0 256)) = true)
    by (vm_compute; reflexivity).
  rewrite forallb_forall in H. specialize (H a (all_ascii_complete a)).
  apply Ascii.eqb_eq in H. exact H.
Qed.

Lemma toUpperCase_idempotent (s : string) :
  toUpperCase (toUpperCase s) = toUpperCase s.
Proof.
  induction s as [| a s IH]; [reflexivity |].
  simpl. rewrite ascii_toUpperCase_idempotent, IH. reflexivity.
Qed.

Lemma spec_candidate_type_shape (lc : Report) (t : string) :
  spec_candidate_type lc = Some t -> t <> "" /\ toUpperCase t = t.
Proof.
  unfold spec_candidate_type.
  destruct (present (relayProtocol lc)) as [relay |] eqn:Hrelay.
  - intros [= <-]. split; [discriminate |].
    change (toUpperCase ("TURN-" ++ toUpperCase relay))
      with ("TURN-" ++ toUpperCase (toUpperCase relay)).
    rewrite toUpperCase_idempotent. reflexivity.
  - destruct (present (protocol lc)) as [p |] eqn:Hp; [| discriminate].
    intros [= <-]. apply present_Some in Hp as [_ Hne].
    split; [| apply toUpperCase_idempotent].
    intros He. apply toUpperCase_empty in He. congruence.
Qed.

(** X6. The connection type returned is 'unknown' or the type of a local
    candidate among the reports to which a candidate pair with state
    'succeeded' refers; it is never the empty string, and unless it is
    'unknown' it is in upper case. *)
Theorem connectionType_of_sound (reports : list Report) :
  connectionType_of reports <> ""
  /\ (connectionType_of reports = "unknown"
      \/ toUpperCase (connectionType_of reports) = connectionType_of reports
         /\ exists pair localCandidate : Report,
              In pair reports /\ In localCandidate reports
              /\ is_successful_pair pair = true
              /\ type localCandidate = "local-candidate"
              /\ localCandidateId pair = Some (id localCandidate)
              /\ spec_candidate_type localCandidate
                 = Some (connectionType_of reports)).
Proof.
  rewrite connectionType_of_spec. unfold spec_connectionType.
  destruct (List.find _ _) as [first |] eqn:Hfind;
    [| split; [discriminate | left; reflexivity]].
  apply find_some in Hfind as [Hin Htype].
  apply filter_In in Hin as [Hin Hsucc].
  rewrite <- is_successful_pair_spec in Hsucc.
  apply bool_decide_eq_true_1 in Htype as [t Ht]. rewrite Ht. simpl.
  unfold spec_pair_type in Ht.
  destruct (spec_local_candidate reports first) as [lc |] eqn:Hlc;
    [| discriminate].
  destruct (spec_candidate_type_shape lc t Ht) as [Hne Hupper].
  split; [exact Hne |]. right. split; [exact Hupper |].
  unfold spec_local_candidate in Hlc.
  apply find_some in Hlc as [Hlcin Hlc].
  apply andb_true_iff in Hlc as [Htypelc Hid].
  apply String.eqb_eq in Htypelc. apply bool_decide_eq_true_1 in Hid.
  exists first, lc. repeat split; assumption.
Qed.

Lemma some_pointwise {A V : Type} (f g : A -> V -> bool * V) (l : list A) (v : V) :
  (forall a v', f a v' = g a v') -> some f l v = some g l v.
Proof.
  intros Hfg. revert v. induction l as [| a l IH]; intros v; [reflexivity |].
  simpl. rewrite Hfg. destruct (g a v) as [[] v']; [reflexivity | apply IH].
Qed.

Lemma some_never {A V : Type} (f : A -> V -> bool * V) (l : list A) (v : V) :
  (forall a v', f a v' = (false, v')) -> some f l v = (false, v).
Proof.
  intros Hf. revert v. induction l as [| a l IH]; intros v; [reflexivity |].
  simpl. rewrite Hf. apply IH.
Qed.

Lemma find_filter_implied {A : Type} (f g : A -> bool) (l : list A) :
  (forall x, f x = true -> g x = true) ->
  List.find f (List.filter g l) = List.find f l.
Proof.
  intros Hfg. induction l as [| a l IH]; [reflexivity |]. simpl.
  destruct (g a) eqn:Hg; simpl.
  - rewrite IH. reflexivity.
  - destruct (f a) eqn:Hf; [| exact IH].
    apply Hfg in Hf. congruence.
Qed.

Lemma filter_filter_implied {A : Type} (f g : A -> bool) (l : list A) :
  (forall x, f x = true -> g x = true) ->
  List.filter f (List.filter g l) = List.filter f l.
Proof.
  intros Hfg. induction l as [| a l IH]; [reflexivity |]. simpl.
  destruct (g a) eqn:Hg; simpl.
  - rewrite IH. reflexivity.
  - destruct (f a) eqn:Hf; [| exact IH].
    apply Hfg in Hf. congruence.
Qed.

Lemma filter_none {A : Type} (f : A -> bool) (l : list A) :
  (forall x, In x l -> f x = false) -> List.filter f l = [].
Proof.
  induction l as [| a l IH]; intros Hf; [reflexivity |]. simpl.
  rewrite (Hf a) by (left; reflexivity).
  apply IH. intros x Hx. apply Hf. right. exact Hx.
Qed.

Lemma find_none_all {A : Type} (f : A -> bool) (l : list A) :
  (forall x, In x l -> f x = false) -> List.find f l = None.
Proof.
  induction l as [| a l IH]; intros Hf; [reflexivity |]. simpl.
  rewrite (Hf a) by (left; reflexivity).
  apply IH. intros x Hx. apply Hf. right. exact Hx.
Qed.

(** X7. The classification reads the candidate pairs and the local
    candidates only: reports of other types can be left out without
    changing the result.  The result is 'unknown' when no report is a
    candidate pair with state 'succeeded' (the empty list of reports
    included) and when no report is a local candidate. *)
Theorem connectionType_of_relevant (reports : list Report) :
  connectionType_of (List.filter relevant_report reports)
  = connectionType_of reports
  /\ ((forall r, In r reports -> is_successful_pair r = false) ->
      connectionType_of reports = "unknown")
  /\ ((forall r, In r reports -> type r <> "local-candidate") ->
      connectionType_of reports = "unknown").
Proof.
  unfold connectionType_of. split; [| split].
  - rewrite filter_filter_implied.
    + f_equal. apply some_pointwise. intros pair found. unfold pair_callback.
      rewrite find_filter_implied; [reflexivity |].
      intros r Hr. apply andb_true_iff in Hr as [Hr _].
      unfold relevant_report. rewrite Hr. apply orb_true_r.
    + intros r Hr. apply andb_true_iff in Hr as [Hr _].
      unfold relevant_report. rewrite Hr. reflexivity.
  - intros Hnone. rewrite filter_none by exact Hnone. reflexivity.
  - intros Hnone. rewrite some_never; [reflexivity |].
    intros pair found. unfold pair_callback.
    rewrite find_none_all; [reflexivity |].
    intros r Hr. apply andb_false_iff. left.
    apply String.eqb_neq. apply Hnone. exact Hr.
Qed.

(** ** What the closures and the host leave as it is *)

Lemma connection_of_without_connection (w : World) :
  without_connection w ->
  connection_of (webrtcMediaConnection (this w)) w = (Throw TypeError, w).
Proof.
  intros Hnone. unfold connection_of.
  destruct (webrtcMediaConnection (this w)) as [| | b | n | str | h] eqn:Hconn;
    try reflexivity.
  destruct (connections w !! h) as [c |] eqn:Hc; [| reflexivity].
  exfalso. exact (Hnone h c Hconn Hc).
Qed.

Lemma connection_cases (w : World) :
  without_connection w
  \/ exists (h : nat) (c : MediaConnection),
       webrtcMediaConnection (this w) = VObj h /\ connections w !! h = Some c.
Proof.
  destruct (webrtcMediaConnection (this w)) as [| | b | n | str | h] eqn:Hconn;
    try (left; intros h c Hh; rewrite Hconn in Hh; discriminate).
  destruct (connections w !! h) as [c |] eqn:Hc.
  - right. eauto.
  - left. intros h' c' Hh. rewrite Hconn in Hh. injection Hh as <-. congruence.
Qed.

Lemma isConnected_no_connection (w : World) :
  without_connection w -> isConnected w = (Throw TypeError, w).
Proof.
  intros Hnone.
  unfold isConnected, bind, get_webrtcMediaConnection, getConnectionState, bind.
  rewrite (connection_of_without_connection w Hnone). reflexivity.
Qed.

Lemma listener_no_connection (k : nat) (w : World) :
  without_connection w -> connectionStateListener k w = (Throw TypeError, w).
Proof.
  intros Hnone. apply listener_without_connection.
  intros h c Hh Hc. exact (Hnone h c Hh Hc).
Qed.

Lemma bailTimeout_no_connection (k : nat) (w : World) :
  without_connection w -> bailTimeout k w = (Throw TypeError, w).
Proof.
  intros Hnone. unfold bailTimeout, bind, get_webrtcMediaConnection, off, bind.
  rewrite (connection_of_without_connection w Hnone). reflexivity.
Qed.

Lemma wait_no_connection (w : World) :
  without_connection w ->
  waitForMediaConnectionConnected w = (Throw TypeError, w).
Proof.
  intros Hnone. unfold waitForMediaConnectionConnected, bind.
  rewrite (isConnected_no_connection w Hnone). reflexivity.
Qed.

Lemma stats_of_with_listeners (h h' : nat) (o : StatsOutcome)
  (c : MediaConnection) (ls : list (Event * nat))
  (cs : gmap nat MediaConnection) :
  cs !! h' = Some c ->
  (exists c0, cs !! h = Some c0 /\ stats c0 = o) ->
  exists c0, <[h' := with_listeners ls c]> cs !! h = Some c0 /\ stats c0 = o.
Proof.
  intros Hc (c0 & Hc0 & Ho).
  destruct (decide (h' = h)) as [-> | Hne].
  - rewrite lookup_insert_eq. rewrite Hc in Hc0. injection Hc0 as <-. eauto.
  - rewrite lookup_insert_ne by exact Hne. eauto.
Qed.

Lemma listener_frame (k : nat) (w : World) :
  this (snd (connectionStateListener k w)) = this w
  /\ clock (snd (connectionStateListener k w)) = clock w
  /\ forall (h : nat) (o : StatsOutcome),
       stats_of h o w -> stats_of h o (snd (connectionStateListener k w)).
Proof.
  destruct (connection_cases w) as [Hnone | (h0 & c0 & Hconn & Hc0)].
  - rewrite (listener_no_connection k w Hnone). simpl. tauto.
  - rewrite (listener_effect k h0 c0 w Hconn Hc0). simpl.
    case_bool_decide; [| tauto].
    destruct (settle_frame k Fulfilled
                (detached k h0 c0 (with_timers (delete k (timers w)) w)))
      as (Hthis & Hconns & _ & Hclock).
    unfold resolve, stats_of. rewrite Hthis, Hconns, Hclock. simpl.
    repeat split. intros h o Ho.
    apply stats_of_with_listeners; assumption.
Qed.

Lemma call_listeners_frame (ks : list nat) (w : World) :
  this (snd (call_listeners ks w)) = this w
  /\ clock (snd (call_listeners ks w)) = clock w
  /\ forall (h : nat) (o : StatsOutcome),
       stats_of h o w -> stats_of h o (snd (call_listeners ks w)).
Proof.
  revert w. induction ks as [| k ks IH]; intros w; [simpl; tauto |].
  simpl. unfold bind.
  destruct (listener_frame k w) as (Hthis & Hclock & Hstats).
  destruct (connectionStateListener k w) as [[[] | e] w']; simpl in *.
  - destruct (IH w') as (Hthis' & Hclock' & Hstats').
    rewrite Hthis', Hclock'. repeat split; auto.
  - repeat split; auto.
Qed.

Lemma bailTimeout_keeps_stats (k : nat) (w : World) (h : nat) (o : StatsOutcome) :
  stats_of h o w -> stats_of h o (snd (bailTimeout k w)).
Proof.
  intros Ho.
  destruct (connection_cases w) as [Hnone | (h0 & c0 & Hconn & Hc0)].
  - rewrite (bailTimeout_no_connection k w Hnone). exact Ho.
  - rewrite (bailTimeout_effect k h0 c0 w Hconn Hc0). simpl.
    destruct (settle_frame k (Rejected (Thrown VUndefined)) (detached k h0 c0 w))
      as (_ & Hconns & _).
    unfold reject, stats_of. rewrite Hconns. simpl.
    apply stats_of_with_listeners; assumption.
Qed.

Lemma fire_all_keeps_stats (ks : list nat) (w : World) (h : nat) (o : StatsOutcome) :
  stats_of h o w -> stats_of h o (fire_all ks w).
Proof.
  revert w. induction ks as [| k ks IH]; intros w Ho; [exact Ho |].
  simpl. apply IH. unfold fire. destruct (timers w !! k); [| exact Ho].
  apply (bailTimeout_keeps_stats k (with_timers (delete k (timers w)) w)).
  exact Ho.
Qed.

Lemma wait_frame (w : World) :
  clock (snd (waitForMediaConnectionConnected w)) = clock w
  /\ forall (h : nat) (o : StatsOutcome),
       stats_of h o w -> stats_of h o (snd (waitForMediaConnectionConnected w)).
Proof.
  destruct (connection_cases w) as [Hnone | (h0 & c0 & Hconn & Hc0)].
  - rewrite (wait_no_connection w Hnone). simpl. tauto.
  - destruct (decide (connectionState c0 = Connected)) as [Hs | Hs].
    + rewrite (wait_connected w h0 c0 Hconn Hc0 Hs). simpl. tauto.
    + rewrite (wait_not_connected w h0 c0 Hconn Hc0 Hs). simpl.
      split; [reflexivity |]. intros h o Ho. unfold stats_of. simpl.
      apply stats_of_with_listeners; assumption.
Qed.

Lemma step_keeps_stats (e : HostEvent) (w : World) (h : nat) (o : StatsOutcome) :
  stats_of h o w -> stats_of h o (step e w).
Proof.
  intros Ho. destruct e as [h' s | d | call |]; simpl.
  - destruct (connections w !! h') as [c' |] eqn:Hc'; [| exact Ho].
    set (w1 := with_connections _ w).
    assert (Ho1 : stats_of h o w1).
    { unfold stats_of, w1. simpl. destruct Ho as (c0 & Hc0 & Hstats).
      destruct (decide (h' = h)) as [-> | Hne].
      - rewrite lookup_insert_eq. rewrite Hc' in Hc0. injection Hc0 as <-.
        eexists. split; [reflexivity | exact Hstats].
      - rewrite lookup_insert_ne by exact Hne. eauto. }
    unfold emit. destruct (connections w1 !! h'); [| exact Ho1].
    apply call_listeners_frame. exact Ho1.
  - apply fire_all_keeps_stats. exact Ho.
  - exact Ho.
  - apply wait_frame. exact Ho.
Qed.

Lemma run_keeps_stats (tr : list HostEvent) (w : World) (h : nat) (o : StatsOutcome) :
  stats_of h o w -> stats_of h o (run tr w).
Proof.
  revert w. induction tr as [| e tr IH]; intros w Ho; [exact Ho |].
  simpl. apply IH, step_keeps_stats, Ho.
Qed.

(** X8. Apart from the setters, nothing writes the instance: the wait, its
    listener and its timer callback, run by any events of the connections
    and any lapse of time, leave every field as it was. *)
Theorem callbacks_keep_instance (tr : list HostEvent) (w : World)
  (Htr : Forall not_setter tr) :
  this (run tr w) = this w.
Proof.
  revert w. induction Htr as [| e tr He Htr IH]; intros w; [reflexivity |].
  simpl. rewrite IH. destruct e as [h s | d | call |]; simpl.
  - destruct (connections w !! h) as [c |]; [| reflexivity].
    unfold emit. simpl. rewrite lookup_insert_eq.
    apply (call_listeners_frame _
             (with_connections (<[h := with_connectionState s c]> (connections w)) w)).
  - apply (fire_all_frame _ (with_clock (clock w + Z.of_N d) w)).
  - destruct He.
  - apply wait_keeps_this.
Qed.

(** ** getCurrentConnectionType, further *)

Lemma body_without_connection (w : World) :
  without_connection w ->
  getCurrentConnectionType_body w = (Normal "unknown", w).
Proof.
  intros Hnone.
  unfold getCurrentConnectionType_body, bind, try_catch, bind,
    get_webrtcMediaConnection, await_getStats, bind.
  rewrite (connection_of_without_connection w Hnone). reflexivity.
Qed.

(** X9. When the instance refers to no media connection, the call of
    getCurrentConnectionType is rejected with the TypeError of the wait,
    which is outside the try block, and nothing is changed.  When the
    connection is missing only after the wait was fulfilled, the TypeError
    is raised inside the try block and caught: the result is 'unknown'. *)
Theorem getCurrentConnectionType_without_connection (w : World)
  (Hnone : without_connection w) :
  getCurrentConnectionType w = (Settled (Throw TypeError), w)
  /\ (forall p : nat,
        promises w !! p = Some Fulfilled ->
        getCurrentConnectionType_resume p w = (Settled (Normal "unknown"), w)).
Proof.
  split.
  - unfold getCurrentConnectionType.
    rewrite (wait_no_connection w Hnone). reflexivity.
  - intros p Hp. unfold getCurrentConnectionType_resume. rewrite Hp.
    rewrite (body_without_connection w Hnone). reflexivity.
Qed.

Lemma getCurrentConnectionType_not_connected (w : World) (h : nat)
  (c : MediaConnection) :
  webrtcMediaConnection (this w) = VObj h ->
  connections w !! h = Some c ->
  connectionState c <> Connected ->
  getCurrentConnectionType w
  = (Awaiting (length (promises w)), waiting_world h c w).
Proof.
  intros Hconn Hc Hs. unfold getCurrentConnectionType.
  rewrite (wait_not_connected w h c Hconn Hc Hs).
  unfold getCurrentConnectionType_resume. simpl.
  rewrite list_lookup_middle by reflexivity. reflexivity.
Qed.

Lemma run_snoc (tr : list HostEvent) (e : HostEvent) (w : World) :
  run (tr ++ [e]) w = step e (run tr w).
Proof. rewrite run_app. reflexivity. Qed.

Lemma waiting_world_run (w : World) (h : nat) (c : MediaConnection)
  (tr : list HostEvent) :
  webrtcMediaConnection (this w) = VObj h ->
  connections w !! h = Some c ->
  connectionState c <> Connected ->
  Forall (quiet h) tr ->
  in_time (Z.max 0 PC_BAIL_TIMEOUT) tr ->
  pending_wait (length (promises w)) h (clock w + Z.max 0 PC_BAIL_TIMEOUT)
    (run tr (waiting_world h c w))
  /\ clock (run tr (waiting_world h c w)) = clock w + elapsed tr.
Proof.
  intros Hconn Hc Hs Hquiet Htime.
  apply (run_keeps_pending_wait tr _ h _ _
           (waiting_world_pending w h c Hconn Hc Hs) Hquiet).
  simpl. replace (clock w + Z.max 0 PC_BAIL_TIMEOUT - clock w)
    with (Z.max 0 PC_BAIL_TIMEOUT) by lia. exact Htime.
Qed.

(** X10. Called while the connection is not connected,
    getCurrentConnectionType waits for the promise of the wait.  When the
    wait times out, the method is rejected with the reason of the wait
    (undefined): the timeout is not turned into 'unknown', and getStats() is
    not consulted. *)
Theorem getCurrentConnectionType_timeout
  (w : World) (h : nat) (c : MediaConnection)
  (Hconn : webrtcMediaConnection (this w) = VObj h)
  (Hc : connections w !! h = Some c)
  (Hs : connectionState c <> Connected) :
  exists (p : nat) (w' : World),
    getCurrentConnectionType w = (Awaiting p, w')
    /\ forall (tr : list HostEvent) (d : N),
         Forall (quiet h) tr ->
         in_time (Z.max 0 PC_BAIL_TIMEOUT) tr ->
         Z.max 0 PC_BAIL_TIMEOUT <= elapsed tr + Z.of_N d ->
         getCurrentConnectionType_resume p (run tr w') = (Awaiting p, run tr w')
         /\ getCurrentConnectionType_resume p (run (tr ++ [Elapse d]) w')
            = (Settled (Throw (Thrown VUndefined)), run (tr ++ [Elapse d]) w').
Proof.
  eexists _, _.
  split; [apply (getCurrentConnectionType_not_connected w h c Hconn Hc Hs) |].
  intros tr d Hquiet Htime Hlate.
  destruct (waiting_world_run w h c tr Hconn Hc Hs Hquiet Htime) as (Hw & Hclock).
  split.
  - unfold getCurrentConnectionType_resume.
    destruct Hw as ((_ & _ & _ & Hp) & _). rewrite Hp. reflexivity.
  - rewrite run_snoc.
    assert (Hrej : wait_state (length (promises w)) h false None
                     (Rejected (Thrown VUndefined))
                     (step (Elapse d) (run tr (waiting_world h c w))))
      by (apply (pending_wait_rejects _ h _ d _ Hw); rewrite Hclock; lia).
    unfold getCurrentConnectionType_resume.
    destruct Hrej as (_ & _ & _ & Hp). rewrite Hp. reflexivity.
Qed.

(** X11. Called while the connection is not connected,
    getCurrentConnectionType waits; when the connection then becomes
    connected in time, the method is fulfilled with the classification of
    the reports that getStats() gives on that connection, or with 'unknown'
    when getStats() fails. *)
Theorem getCurrentConnectionType_after_wait
  (w : World) (h : nat) (c : MediaConnection)
  (Hconn : webrtcMediaConnection (this w) = VObj h)
  (Hc : connections w !! h = Some c)
  (Hs : connectionState c <> Connected) :
  exists (p : nat) (w' : World),
    getCurrentConnectionType w = (Awaiting p, w')
    /\ forall tr : list HostEvent,
         Forall (quiet h) tr ->
         in_time (Z.max 0 PC_BAIL_TIMEOUT) tr ->
         fst (getCurrentConnectionType_resume p
                (run (tr ++ [StateChanged h Connected]) w'))
         = Settled (Normal (connectionType_of (collected (stats c)))).
Proof.
  eexists _, _.
  split; [apply (getCurrentConnectionType_not_connected w h c Hconn Hc Hs) |].
  intros tr Hquiet Htime.
  destruct (waiting_world_run w h c tr Hconn Hc Hs Hquiet Htime) as (Hw & _).
  assert (Hstats : stats_of h (stats c)
                     (run (tr ++ [StateChanged h Connected]) (waiting_world h c w))).
  { apply run_keeps_stats. unfold stats_of. simpl.
    rewrite lookup_insert_eq. eexists. split; reflexivity. }
  rewrite run_snoc in *.
  pose proof (pending_wait_resolves _ h _ _ Hw) as Hful.
  destruct Hstats as (c' & Hc' & Hstats).
  destruct Hful as (Hconn' & _ & _ & Hp).
  unfold getCurrentConnectionType_resume. rewrite Hp.
  rewrite (body_on_connection _ h c' Hconn' Hc'), Hstats. reflexivity.
Qed.

(** ** Several waits, and the end of a wait *)

(** X12. Two calls of the wait on a connection that is not connected
    return two different promises, each with its own listener and timer;
    one CONNECTION_STATE_CHANGED event with the connection connected
    fulfils both, and when the time is over both are rejected. *)
Theorem two_waits
  (w : World) (h : nat) (c : MediaConnection)
  (Hconn : webrtcMediaConnection (this w) = VObj h)
  (Hc : connections w !! h = Some c)
  (Hs : connectionState c <> Connected) :
  exists (p1 p2 : nat) (w1 w2 : World),
    waitForMediaConnectionConnected w = (Normal p1, w1)
    /\ waitForMediaConnectionConnected w1 = (Normal p2, w2)
    /\ p1 <> p2
    /\ (forall tr : list HostEvent,
          Forall (quiet h) tr ->
          in_time (Z.max 0 PC_BAIL_TIMEOUT) tr ->
          promises (run (tr ++ [StateChanged h Connected]) w2) !! p1 = Some Fulfilled
          /\ promises (run (tr ++ [StateChanged h Connected]) w2) !! p2
             = Some Fulfilled)
    /\ (forall (tr : list HostEvent) (d : N),
          Forall (quiet h) tr ->
          in_time (Z.max 0 PC_BAIL_TIMEOUT) tr ->
          Z.max 0 PC_BAIL_TIMEOUT <= elapsed tr + Z.of_N d ->
          promises (run (tr ++ [Elapse d]) w2) !! p1
          = Some (Rejected (Thrown VUndefined))
          /\ promises (run (tr ++ [Elapse d]) w2) !! p2
             = Some (Rejected (Thrown VUndefined))).
Proof.
  pose proof (waiting_world_pending w h c Hconn Hc Hs) as Hp1.
  set (w1 := waiting_world h c w) in *.
  destruct Hp1 as (Hw1 & Hstate1).
  assert (Hconn1 : webrtcMediaConnection (this w1) = VObj h) by exact Hconn.
  destruct Hw1 as (_ & (c1 & Hc1 & Hreg1) & Ht1 & Hpr1).
  assert (Hs1 : connectionState c1 <> Connected).
  { destruct Hstate1 as (s & Hne & c1' & Hc1' & <-).
    rewrite Hc1 in Hc1'. injection Hc1' as <-. exact Hne. }
  assert (Hw1 : pending_wait (length (promises w)) h
                  (clock w + Z.max 0 PC_BAIL_TIMEOUT) w1).
  { split; [repeat split; eauto |]. exists (connectionState c1).
    split; [exact Hs1 |]. exists c1. split; [exact Hc1 | reflexivity]. }
  pose proof (waiting_world_pending w1 h c1 Hconn1 Hc1 Hs1) as Hp2.
  set (w2 := waiting_world h c1 w1) in *.
  assert (Hstep : step Wait w1 = w2).
  { simpl. rewrite (wait_not_connected w1 h c1 Hconn1 Hc1 Hs1). reflexivity. }
  assert (Hp1 : pending_wait (length (promises w)) h
                  (clock w + Z.max 0 PC_BAIL_TIMEOUT) w2).
  { rewrite <- Hstep.
    apply (step_keeps_pending_wait Wait _ h _ w1 Hw1); exact I. }
  assert (Hrun : forall tr,
             Forall (quiet h) tr -> in_time (Z.max 0 PC_BAIL_TIMEOUT) tr ->
             pending_wait (length (promises w)) h
               (clock w + Z.max 0 PC_BAIL_TIMEOUT) (run tr w2)
             /\ pending_wait (length (promises w1)) h
                  (clock w + Z.max 0 PC_BAIL_TIMEOUT) (run tr w2)
             /\ clock (run tr w2) = clock w + elapsed tr).
  { intros tr Hquiet Htime.
    assert (Hbudget : in_time (clock w + Z.max 0 PC_BAIL_TIMEOUT - clock w2) tr).
    { simpl. replace (clock w + Z.max 0 PC_BAIL_TIMEOUT - clock w)
        with (Z.max 0 PC_BAIL_TIMEOUT) by lia. exact Htime. }
    destruct (run_keeps_pending_wait tr _ h _ w2 Hp1 Hquiet Hbudget) as (H1 & Hcl).
    destruct (run_keeps_pending_wait tr _ h _ w2 Hp2 Hquiet Hbudget) as (H2 & _).
    split; [exact H1 |]. split; [exact H2 | exact Hcl]. }
  exists (length (promises w)), (length (promises w1)), w1, w2.
  split; [apply (wait_not_connected w h c Hconn Hc Hs) |].
  split; [apply (wait_not_connected w1 h c1 Hconn1 Hc1 Hs1) |].
  split; [unfold w1; simpl; rewrite length_app; simpl; lia |].
  split.
  - intros tr Hquiet Htime. rewrite run_snoc.
    destruct (Hrun tr Hquiet Htime) as (H1 & H2 & _).
    apply pending_wait_resolves in H1, H2.
    destruct H1 as (_ & _ & _ & H1). destruct H2 as (_ & _ & _ & H2).
    split; assumption.
  - intros tr d Hquiet Htime Hlate. rewrite run_snoc.
    destruct (Hrun tr Hquiet Htime) as (H1 & H2 & Hclock).
    apply (pending_wait_rejects _ h _ d) in H1, H2; try (rewrite Hclock; lia).
    destruct H1 as (_ & _ & _ & H1). destruct H2 as (_ & _ & _ & H2).
    split; assumption.
Qed.

Lemma step_keeps_settled (e : HostEvent) (k h : nat) (p : PromiseState)
  (w : World) :
  wait_state k h false None p w ->
  p <> Pending ->
  keeps_connection h e ->
  wait_state k h false None p (step e w).
Proof.
  intros Hw Hp He.
  destruct (wait_state_connection _ _ _ _ _ _ Hw) as (Hconn & c & Hc).
  destruct e as [h' s | d | call |]; simpl in *.
  - destruct (connections w !! h') as [c' |] eqn:Hc'; [| exact Hw].
    set (w1 := with_connections _ w).
    assert (Hw1 : wait_state k h false None p w1)
      by (apply wait_state_with_connectionState; assumption).
    unfold emit. destruct (connections w1 !! h'); [| exact Hw1].
    apply call_listeners_keeps_wait_state; [exact Hw1 |].
    right. repeat split. exact Hp.
  - apply fire_all_keeps_wait_state; [| right; reflexivity].
    destruct Hw as (? & ? & ? & ?). repeat split; assumption.
  - destruct Hw as (_ & Hreg & Ht & Hpr). repeat split; try assumption.
    simpl. apply setter_keeps_connection; assumption.
  - destruct Hw as (_ & (c0 & Hc0 & Hreg) & Ht & Hpr).
    rewrite Hc in Hc0. injection Hc0 as <-.
    pose proof (lookup_lt_Some _ _ _ Hpr) as Hlt.
    destruct (decide (connectionState c = Connected)) as [Hs | Hs].
    + rewrite (wait_connected w h c Hconn Hc Hs). simpl.
      repeat split; simpl; try assumption.
      * exists c. split; [exact Hc | exact Hreg].
      * rewrite lookup_app_l by exact Hlt. exact Hpr.
    + rewrite (wait_not_connected w h c Hconn Hc Hs). simpl.
      repeat split; simpl; try assumption.
      * eexists. split; [apply lookup_insert_eq |]. simpl.
        rewrite elem_of_app, list_elem_of_singleton. rewrite <- Hreg.
        split; [intros [Hin | Heq]; [exact Hin | ] | tauto].
        injection Heq as Heq. lia.
      * rewrite lookup_insert_ne by lia. exact Ht.
      * rewrite lookup_app_l by exact Hlt. exact Hpr.
Qed.

Lemma run_keeps_settled (tr : list HostEvent) (k h : nat) (p : PromiseState)
  (w : World) :
  wait_state k h false None p w ->
  p <> Pending ->
  Forall (keeps_connection h) tr ->
  wait_state k h false None p (run tr w).
Proof.
  intros Hw Hp Htr. revert w Hw.
  induction Htr as [| e tr He Htr IH]; intros w Hw; [exact Hw |].
  simpl. apply IH. apply step_keeps_settled; assumption.
Qed.

(** X13. A wait is settled once.  After it was fulfilled, the time running
    out does not reject it, and after it was rejected, the connection
    becoming connected does not fulfil it: whatever events follow, the
    promise keeps its state, no timer is set for it and its listener is not
    registered again. *)
Theorem wait_settles_once
  (w : World) (h : nat) (c : MediaConnection)
  (Hconn : webrtcMediaConnection (this w) = VObj h)
  (Hc : connections w !! h = Some c)
  (Hs : connectionState c <> Connected) :
  exists (p : nat) (w' : World),
    waitForMediaConnectionConnected w = (Normal p, w')
    /\ (forall tr later : list HostEvent,
          Forall (quiet h) tr ->
          in_time (Z.max 0 PC_BAIL_TIMEOUT) tr ->
          Forall (keeps_connection h) later ->
          let w'' := run (tr ++ [StateChanged h Connected] ++ later) w' in
          promises w'' !! p = Some Fulfilled
          /\ timers w'' !! p = None
          /\ forall c'' : MediaConnection,
               connections w'' !! h = Some c'' ->
               (CONNECTION_STATE_CHANGED, p) ∉ listeners c'')
    /\ (forall (tr later : list HostEvent) (d : N),
          Forall (quiet h) tr ->
          in_time (Z.max 0 PC_BAIL_TIMEOUT) tr ->
          Z.max 0 PC_BAIL_TIMEOUT <= elapsed tr + Z.of_N d ->
          Forall (keeps_connection h) later ->
          let w'' := run (tr ++ [Elapse d] ++ later) w' in
          promises w'' !! p = Some (Rejected (Thrown VUndefined))
          /\ timers w'' !! p = None
          /\ forall c'' : MediaConnection,
               connections w'' !! h = Some c'' ->
               (CONNECTION_STATE_CHANGED, p) ∉ listeners c'').
Proof.
  eexists _, _. split; [apply (wait_not_connected w h c Hconn Hc Hs) |].
  split.
  - intros tr later Hquiet Htime Hlater w''. unfold w''.
    rewrite app_assoc, run_app, run_snoc.
    destruct (waiting_world_run w h c tr Hconn Hc Hs Hquiet Htime) as (Hw & _).
    apply wait_state_detached_facts.
    apply run_keeps_settled; [| discriminate | exact Hlater].
    apply (pending_wait_resolves _ h _ _ Hw).
  - intros tr later d Hquiet Htime Hlate Hlater w''. unfold w''.
    rewrite app_assoc, run_app, run_snoc.
    destruct (waiting_world_run w h c tr Hconn Hc Hs Hquiet Htime)
      as (Hw & Hclock).
    apply wait_state_detached_facts.
    apply run_keeps_settled; [| discriminate | exact Hlater].
    apply (pending_wait_rejects _ h _ d _ Hw). rewrite Hclock. lia.
Qed.

(** ** The connection of the instance changed during a wait *)

Lemma without_connection_frame (w w' : World) :
  this w' = this w ->
  connections w' = connections w ->
  without_connection w -> without_connection w'.
Proof.
  intros Hthis Hconns Hnone h c. rewrite Hthis, Hconns. apply Hnone.
Qed.

Lemma call_listeners_no_connection (ks : list nat) (w : World) :
  without_connection w -> snd (call_listeners ks w) = w.
Proof.
  intros Hnone. destruct ks as [| k ks]; [reflexivity |].
  simpl. unfold bind. rewrite (listener_no_connection k w Hnone). reflexivity.
Qed.

Lemma fire_no_connection (k : nat) (w : World) :
  without_connection w ->
  without_connection (fire k w)
  /\ this (fire k w) = this w
  /\ connections (fire k w) = connections w
  /\ promises (fire k w) = promises w.
Proof.
  intros Hnone. unfold fire. destruct (timers w !! k); [| tauto].
  assert (Hnone' : without_connection (with_timers (delete k (timers w)) w))
    by (apply (without_connection_frame w); [reflexivity | reflexivity | exact Hnone]).
  rewrite (bailTimeout_no_connection k _ Hnone'). simpl. tauto.
Qed.

Lemma fire_all_no_connection (ks : list nat) (w : World) :
  without_connection w ->
  this (fire_all ks w) = this w
  /\ connections (fire_all ks w) = connections w
  /\ promises (fire_all ks w) = promises w.
Proof.
  revert w. induction ks as [| k ks IH]; intros w Hnone; [repeat split |].
  destruct (fire_no_connection k w Hnone) as (Hnone' & Hthis & Hconns & Hproms).
  simpl. destruct (IH (fire k w) Hnone') as (Hthis' & Hconns' & Hproms').
  repeat split; congruence.
Qed.

Lemma setter_other_attribute (c : SetterCall) (o : MediaProperties) :
  designated c <> A_webrtcMediaConnection ->
  webrtcMediaConnection (run_setter c o) = webrtcMediaConnection o.
Proof. destruct c; simpl; intros Hd; try reflexivity; congruence. Qed.

Lemma step_no_connection (e : HostEvent) (w : World) :
  without_connection w ->
  no_new_connection e ->
  without_connection (step e w)
  /\ promises (step e w) = promises w
  /\ forall h : nat,
       listeners <$> connections (step e w) !! h = listeners <$> connections w !! h.
Proof.
  intros Hnone He. destruct e as [h' s | d | call |]; simpl.
  - destruct (connections w !! h') as [c' |] eqn:Hc'; [| tauto].
    set (w1 := with_connections _ w).
    assert (Hnone1 : without_connection w1).
    { intros h c Hh. unfold w1. simpl.
      destruct (decide (h' = h)) as [-> | Hne].
      - exfalso. exact (Hnone h c' Hh Hc').
      - rewrite lookup_insert_ne by exact Hne. exact (Hnone h c Hh). }
    unfold emit. destruct (connections w1 !! h');
      [rewrite (call_listeners_no_connection _ w1 Hnone1) |];
      (split; [exact Hnone1 |]; split; [reflexivity |]; intros h;
       unfold w1; simpl;
       destruct (decide (h' = h)) as [-> | Hne];
       [rewrite lookup_insert_eq, Hc'; reflexivity
       | rewrite lookup_insert_ne by exact Hne; reflexivity]).
  - set (w1 := with_clock _ w).
    assert (Hnone1 : without_connection w1)
      by (apply (without_connection_frame w); [reflexivity | reflexivity | exact Hnone]).
    destruct (fire_all_no_connection (due_timers w1) w1 Hnone1)
      as (Hthis & Hconns & Hproms).
    split; [apply (without_connection_frame w1); assumption |].
    split; [exact Hproms |]. intros h. rewrite Hconns. reflexivity.
  - split; [| split; reflexivity].
    intros h c. simpl. rewrite setter_other_attribute by exact He.
    apply Hnone.
  - rewrite (wait_no_connection w Hnone). simpl. repeat split. exact Hnone.
Qed.

Lemma run_no_connection (tr : list HostEvent) (w : World) :
  without_connection w ->
  Forall no_new_connection tr ->
  promises (run tr w) = promises w
  /\ forall h : nat,
       listeners <$> connections (run tr w) !! h = listeners <$> connections w !! h.
Proof.
  intros Hnone Htr. revert w Hnone.
  induction Htr as [| e tr He Htr IH]; intros w Hnone; [split; reflexivity |].
  destruct (step_no_connection e w Hnone He) as (Hnone' & Hproms & Hls).
  simpl. destruct (IH (step e w) Hnone') as (Hproms' & Hls').
  split; [congruence |]. intros h. rewrite Hls'. apply Hls.
Qed.

(** X14. When the application calls unsetPeerConnection while a wait is
    pending, the wait is no longer bounded.  As long as the instance is
    given no connection again, the listener and the timer callback throw a
    TypeError when they are called, before they settle the promise: the
    promise stays pending, also after the time is over, and the listener
    stays registered on the connection. *)
Theorem wait_hangs_after_unset
  (w : World) (h : nat) (c : MediaConnection)
  (Hconn : webrtcMediaConnection (this w) = VObj h)
  (Hc : connections w !! h = Some c)
  (Hs : connectionState c <> Connected) :
  exists (p : nat) (w' : World),
    waitForMediaConnectionConnected w = (Normal p, w')
    /\ forall tr later : list HostEvent,
         Forall (quiet h) tr ->
         in_time (Z.max 0 PC_BAIL_TIMEOUT) tr ->
         Forall no_new_connection later ->
         let w'' := run (tr ++ [Setter Call_unsetPeerConnection] ++ later) w' in
         promises w'' !! p = Some Pending
         /\ exists c'' : MediaConnection,
              connections w'' !! h = Some c''
              /\ (CONNECTION_STATE_CHANGED, p) ∈ listeners c''.
Proof.
  eexists _, _. split; [apply (wait_not_connected w h c Hconn Hc Hs) |].
  intros tr later Hquiet Htime Hlater w''. unfold w''.
  rewrite app_assoc, run_app, run_snoc.
  destruct (waiting_world_run w h c tr Hconn Hc Hs Hquiet Htime)
    as (((_ & (c1 & Hc1 & Hreg) & _ & Hp) & _) & _).
  set (w1 := run tr (waiting_world h c w)) in *.
  assert (Hnone : without_connection (step (Setter Call_unsetPeerConnection) w1))
    by (intros h0 c0 Hh0; discriminate Hh0).
  destruct (run_no_connection later _ Hnone Hlater) as (Hproms & Hls).
  rewrite Hproms. simpl. split; [exact Hp |].
  specialize (Hls h). simpl in Hls. rewrite Hc1 in Hls. simpl in Hls.
  destruct (connections (run later _) !! h) as [c'' |]; [| discriminate].
  simpl in Hls. injection Hls as Hls. exists c''. split; [reflexivity |].
  rewrite Hls. apply Hreg. reflexivity.
Qed.

Lemma fire_keeps_stray_wait (k k' h h2 : nat) (t : option Z) (p : PromiseState)
  (w : World) :
  stray_wait k h h2 t p w ->
  k' <> k \/ t = None ->
  stray_wait k h h2 t p (fire k' w).
Proof.
  intros Hw Hcase. unfold fire.
  destruct (timers w !! k') as [due' |] eqn:Hk'; [| exact Hw].
  destruct Hw as (Hconn & Hne & (c2 & Hc2) & (c & Hc & Hreg) & Ht & Hp).
  assert (Hk : k' <> k).
  { destruct Hcase as [? | ->]; [assumption | intros ->; congruence]. }
  rewrite (bailTimeout_effect k' h2 c2 (with_timers (delete k' (timers w)) w)
             Hconn Hc2).
  simpl.
  destruct (settle_frame k' (Rejected (Thrown VUndefined))
              (detached k' h2 c2 (with_timers (delete k' (timers w)) w)))
    as (Hthis & Hconns & Htimers & _).
  unfold stray_wait, reject. rewrite Hthis, Hconns, Htimers. simpl.
  split; [exact Hconn |]. split; [exact Hne |].
  split; [rewrite lookup_insert_eq; eauto |].
  split; [rewrite lookup_insert_ne by exact Hne; eauto |].
  split; [rewrite lookup_delete_ne by exact Hk; exact Ht |].
  rewrite settle_other by exact Hk. exact Hp.
Qed.

Lemma fire_rejects_stray_wait (k h h2 : nat) (due : Z) (w : World) :
  stray_wait k h h2 (Some due) Pending w ->
  stray_wait k h h2 None (Rejected (Thrown VUndefined)) (fire k w).
Proof.
  intros (Hconn & Hne & (c2 & Hc2) & (c & Hc & Hreg) & Ht & Hp).
  unfold fire. rewrite Ht.
  rewrite (bailTimeout_effect k h2 c2 (with_timers (delete k (timers w)) w)
             Hconn Hc2).
  simpl.
  destruct (settle_frame k (Rejected (Thrown VUndefined))
              (detached k h2 c2 (with_timers (delete k (timers w)) w)))
    as (Hthis & Hconns & Htimers & _).
  unfold stray_wait, reject. rewrite Hthis, Hconns, Htimers. simpl.
  split; [exact Hconn |]. split; [exact Hne |].
  split; [rewrite lookup_insert_eq; eauto |].
  split; [rewrite lookup_insert_ne by exact Hne; eauto |].
  split; [apply lookup_delete_eq |].
  apply settle_pending. exact Hp.
Qed.

Lemma fire_all_rejects_stray_wait (ks : list nat) (k h h2 : nat) (w : World) :
  (forall due, In k ks ->
     stray_wait k h h2 (Some due) Pending w ->
     stray_wait k h h2 None (Rejected (Thrown VUndefined)) (fire_all ks w))
  /\ (stray_wait k h h2 None (Rejected (Thrown VUndefined)) w ->
      stray_wait k h h2 None (Rejected (Thrown VUndefined)) (fire_all ks w)).
Proof.
  revert w. induction ks as [| k' ks IH]; intros w.
  - split; [intros due [] | trivial].
  - simpl. split.
    + intros due Hin Hw. destruct (decide (k' = k)) as [-> | Hne].
      * apply IH. apply (fire_rejects_stray_wait k h h2 due w Hw).
      * destruct Hin as [? | Hin]; [congruence |].
        apply (proj1 (IH (fire k' w)) due Hin).
        apply fire_keeps_stray_wait; [exact Hw | left; exact Hne].
    + intros Hw. apply IH.
      apply fire_keeps_stray_wait; [exact Hw | right; reflexivity].
Qed.

(** X15. When the application gives the instance another media connection
    while a wait is pending, the timer callback calls off on the new
    connection: when the time is over the promise is rejected, but the
    listener of the wait stays registered on the connection on which the
    wait began. *)
Theorem listener_left_on_replaced_connection
  (w : World) (h h2 : nat) (c c2 : MediaConnection)
  (Hconn : webrtcMediaConnection (this w) = VObj h)
  (Hc : connections w !! h = Some c)
  (Hs : connectionState c <> Connected)
  (Hne : h2 <> h)
  (Hc2 : connections w !! h2 = Some c2) :
  exists (p : nat) (w' : World),
    waitForMediaConnectionConnected w = (Normal p, w')
    /\ forall (tr : list HostEvent) (d : N),
         Forall (quiet h) tr ->
         in_time (Z.max 0 PC_BAIL_TIMEOUT) tr ->
         Z.max 0 PC_BAIL_TIMEOUT <= elapsed tr + Z.of_N d ->
         let w'' :=
           run (tr ++ [Setter (Call_setMediaPeerConnection (VObj h2)); Elapse d]) w' in
         promises w'' !! p = Some (Rejected (Thrown VUndefined))
         /\ timers w'' !! p = None
         /\ exists c'' : MediaConnection,
              connections w'' !! h = Some c''
              /\ (CONNECTION_STATE_CHANGED, p) ∈ listeners c''.
Proof.
  eexists _, _. split; [apply (wait_not_connected w h c Hconn Hc Hs) |].
  intros tr d Hquiet Htime Hlate w''. unfold w''.
  rewrite run_app.
  destruct (waiting_world_run w h c tr Hconn Hc Hs Hquiet Htime)
    as (((_ & (c1 & Hc1 & Hreg) & Ht & Hp) & _) & Hclock).
  assert (Hstats : stats_of h2 (stats c2) (run tr (waiting_world h c w))).
  { apply run_keeps_stats. exists c2. split; [| reflexivity].
    simpl. rewrite lookup_insert_ne by congruence. exact Hc2. }
  destruct Hstats as (c2' & Hc2' & _).
  set (w1 := run tr (waiting_world h c w)) in *.
  simpl run.
  set (w3 := with_clock _ _).
  assert (Hstray : stray_wait (length (promises w)) h h2
                     (Some (clock w + Z.max 0 PC_BAIL_TIMEOUT)) Pending w3).
  { split; [reflexivity |]. split; [exact Hne |].
    split; [exists c2'; exact Hc2' |].
    split; [exists c1; split; [exact Hc1 | apply Hreg; reflexivity] |].
    split; [exact Ht | exact Hp]. }
  assert (Hdue : In (length (promises w)) (due_timers w3)).
  { apply in_due_timers. exists (clock w + Z.max 0 PC_BAIL_TIMEOUT).
    split; [exact Ht |]. unfold w3. simpl. rewrite Hclock. lia. }
  destruct (proj1 (fire_all_rejects_stray_wait (due_timers w3) _ h h2 w3)
              _ Hdue Hstray)
    as (_ & _ & _ & Hreg' & Ht' & Hp').
  split; [exact Hp' |]. split; [exact Ht' | exact Hreg'].
Qed.

End Constants.

(** * Instances on concrete inputs *)

Lemma setter_writes_only_its_attribute_witness :
  A_audioStream <> designated (Call_setVideoDeviceId (VStr "camera-1"))
  /\ read A_audioStream
       (run_setter (Call_setVideoDeviceId (VStr "camera-1"))
          (new_MediaProperties (VStr "meetings") (VStr "HIGH")))
     = read A_audioStream (new_MediaProperties (VStr "meetings") (VStr "HIGH")).
Proof.
  split; [discriminate |].
  apply (setter_writes_only_its_attribute
           (Call_setVideoDeviceId (VStr "camera-1"))
           (new_MediaProperties (VStr "meetings") (VStr "HIGH")) A_audioStream).
  discriminate.
Defined.

Lemma getVideoDeviceId_falsy_witness :
  truthy (videoDeviceId
            (setVideoDeviceId (VNum 0) (new_MediaProperties (VStr "meetings") (VStr "HIGH"))))
  = false
  /\ getVideoDeviceId
       (setVideoDeviceId (VNum 0) (new_MediaProperties (VStr "meetings") (VStr "HIGH")))
     = VNull.
Proof.
  split; [reflexivity |].
  apply (getVideoDeviceId_falsy (VStr "meetings") (VStr "HIGH")
           (setVideoDeviceId (VNum 0) (new_MediaProperties (VStr "meetings") (VStr "HIGH")))).
  reflexivity.
Defined.

Lemma wait_resolves_when_connected_witness :
  let w := sample_world (VStr "meetings") (VStr "HIGH") Connecting (StatsResolves []) in
  webrtcMediaConnection (this w) = VObj 7
  /\ connections w !! 7%nat = Some (sample_connection Connecting (StatsResolves []))
  /\ exists (p : nat) (w' : World),
       waitForMediaConnectionConnected 8000 w = (Normal p, w')
       /\ forall tr : list HostEvent,
            Forall (quiet 7) tr ->
            in_time (Z.max 0 8000) tr ->
            promises (run 8000 tr w') !! p = Some Pending
            /\ promises (run 8000 (tr ++ [StateChanged 7 Connected]) w') !! p
               = Some Fulfilled.
Proof.
  intros w.
  assert (Hconn : webrtcMediaConnection (this w) = VObj 7) by reflexivity.
  assert (Hc : connections w !! 7%nat
               = Some (sample_connection Connecting (StatsResolves [])))
    by reflexivity.
  split; [exact Hconn |]. split; [exact Hc |].
  apply (wait_resolves_when_connected 8000 w 7
           (sample_connection Connecting (StatsResolves [])) Hconn Hc).
  discriminate.
Defined.

Lemma wait_is_bounded_witness :
  let w := sample_world (VStr "meetings") (VStr "HIGH") Connecting (StatsResolves []) in
  webrtcMediaConnection (this w) = VObj 7
  /\ connections w !! 7%nat = Some (sample_connection Connecting (StatsResolves []))
  /\ connectionState (sample_connection Connecting (StatsResolves [])) <> Connected
  /\ exists (p : nat) (w' : World),
       waitForMediaConnectionConnected 8000 w = (Normal p, w')
       /\ forall (tr : list HostEvent) (d : N),
            Forall (quiet 7) tr ->
            in_time (Z.max 0 8000) tr ->
            Z.max 0 8000 <= elapsed tr + Z.of_N d ->
            promises (run 8000 (tr ++ [Elapse d]) w') !! p
            = Some (Rejected (Thrown VUndefined)).
Proof.
  intros w.
  assert (Hconn : webrtcMediaConnection (this w) = VObj 7) by reflexivity.
  assert (Hc : connections w !! 7%nat
               = Some (sample_connection Connecting (StatsResolves [])))
    by reflexivity.
  assert (Hs : connectionState (sample_connection Connecting (StatsResolves []))
               <> Connected) by discriminate.
  split; [exact Hconn |]. split; [exact Hc |]. split; [exact Hs |].
  destruct (wait_is_bounded 8000 w 7
              (sample_connection Connecting (StatsResolves [])) Hconn Hc Hs)
    as (p & w' & Hwait & _ & Hreject & _).
  exists p, w'. split; [exact Hwait |].
  intros tr d Hquiet Htime Hlate.
  exact (proj1 (Hreject tr d Hquiet Htime Hlate)).
Defined.

Lemma getCurrentConnectionType_classifies_witness :
  let w := sample_world (VStr "meetings") (VStr "HIGH") Connected
             (StatsResolves sample_reports) in
  webrtcMediaConnection (this w) = VObj 7
  /\ connections w !! 7%nat
     = Some (sample_connection Connected (StatsResolves sample_reports))
  /\ stats (sample_connection Connected (StatsResolves sample_reports))
     = StatsResolves sample_reports
  /\ spec_connectionType sample_reports = "TURN-TLS"
  /\ fst (getCurrentConnectionType 8000 w)
     = Settled (Normal (spec_connectionType sample_reports)).
Proof.
  intros w.
  assert (Hconn : webrtcMediaConnection (this w) = VObj 7) by reflexivity.
  assert (Hc : connections w !! 7%nat
               = Some (sample_connection Connected (StatsResolves sample_reports)))
    by reflexivity.
  split; [exact Hconn |]. split; [exact Hc |]. split; [reflexivity |].
  split; [vm_compute; reflexivity |].
  apply (getCurrentConnectionType_classifies 8000 w 7
           (sample_connection Connected (StatsResolves sample_reports))
           sample_reports Hconn Hc eq_refl).
  reflexivity.
Defined.

Lemma getCurrentConnectionType_stats_failure_witness :
  let w := sample_world (VStr "meetings") (VStr "HIGH") Connected
             (StatsRejects (Thrown (VStr "InvalidStateError"))) in
  webrtcMediaConnection (this w) = VObj 7
  /\ connections w !! 7%nat
     = Some (sample_connection Connected
               (StatsRejects (Thrown (VStr "InvalidStateError"))))
  /\ fst (getCurrentConnectionType 8000 w) = Settled (Normal "unknown")
  /\ this (snd (getCurrentConnectionType 8000 w)) = this w.
Proof.
  intros w.
  assert (Hconn : webrtcMediaConnection (this w) = VObj 7) by reflexivity.
  assert (Hc : connections w !! 7%nat
               = Some (sample_connection Connected
                         (StatsRejects (Thrown (VStr "InvalidStateError")))))
    by reflexivity.
  split; [exact Hconn |]. split; [exact Hc |].
  destruct (getCurrentConnectionType_stats_failure 8000 w 7
              (sample_connection Connected
                 (StatsRejects (Thrown (VStr "InvalidStateError"))))
              (Thrown (VStr "InvalidStateError")) Hconn Hc eq_refl
              (or_intror eq_refl))
    as (Hunknown & Hthis & _).
  split; assumption.
Defined.

Lemma wait_needs_connection_witness :
  let w := sample_world (VStr "meetings") (VStr "HIGH") Connecting (StatsResolves []) in
  webrtcMediaConnection (this (with_this (unsetPeerConnection (this w)) w)) = VNull
  /\ waitForMediaConnectionConnected 8000 (with_this (unsetPeerConnection (this w)) w)
     = (Throw TypeError, with_this (unsetPeerConnection (this w)) w)
  /\ exists (p : nat) (w' : World),
       waitForMediaConnectionConnected 8000 w = (Normal p, w')
       /\ (promises w' !! p = Some Fulfilled \/ promises w' !! p = Some Pending).
Proof.
  intros w.
  destruct (wait_needs_connection (VStr "meetings") (VStr "HIGH") 8000
              (with_this (unsetPeerConnection (this w)) w))
    as (Hnull & _).
  destruct (wait_needs_connection (VStr "meetings") (VStr "HIGH") 8000 w)
    as (_ & _ & _ & Hset).
  split; [reflexivity |].
  split; [apply Hnull; reflexivity |].
  apply (Hset 7%nat (sample_connection Connecting (StatsResolves []))); reflexivity.
Defined.

(** The callbacks read the connection of the instance when they run.  When
    the application unsets it during the wait, the callback of the timer
    throws before it rejects: the promise stays pending and the listener
    stays registered.  The statements on the wait are about runs in which
    the instance keeps its connection. *)
Remark connection_unset_during_wait :
  let w := sample_world (VStr "meetings") (VStr "HIGH") Connecting (StatsResolves []) in
  let w' := run 8000 [Wait; Setter Call_unsetPeerConnection; Elapse 8000] w in
  promises w' = [Pending]
  /\ timers w' !! 0%nat = None
  /\ (listeners <$> connections w' !! 7%nat) = Some [(CONNECTION_STATE_CHANGED, 0%nat)]
  /\ bailTimeout 0 w' = (Throw TypeError, w').
Proof. vm_compute. repeat split. Qed.


Lemma setters_compose_witness :
  designated (Call_setVideoDeviceId (VStr "camera-1"))
  <> designated (Call_setRemoteQualityLevel (VStr "LOW"))
  /\ run_setter (Call_setRemoteQualityLevel (VStr "LOW"))
       (run_setter (Call_setVideoDeviceId (VStr "camera-1"))
          (new_MediaProperties (VStr "meetings") (VStr "HIGH")))
     = run_setter (Call_setVideoDeviceId (VStr "camera-1"))
         (run_setter (Call_setRemoteQualityLevel (VStr "LOW"))
            (new_MediaProperties (VStr "meetings") (VStr "HIGH"))).
Proof.
  split; [discriminate |].
  apply (setters_compose (Call_setVideoDeviceId (VStr "camera-1"))
           (Call_setRemoteQualityLevel (VStr "LOW"))
           (new_MediaProperties (VStr "meetings") (VStr "HIGH"))).
  discriminate.
Defined.

Lemma unsetRemoteStreams_frame_witness :
  A_remoteShare <> A_remoteAudioStream
  /\ A_remoteShare <> A_remoteVideoStream
  /\ read A_remoteShare
       (unsetRemoteMedia
          (setRemoteShare (VObj 3) (new_MediaProperties (VStr "meetings") (VStr "HIGH"))))
     = read A_remoteShare
         (setRemoteShare (VObj 3) (new_MediaProperties (VStr "meetings") (VStr "HIGH"))).
Proof.
  split; [discriminate |]. split; [discriminate |].
  apply (unsetRemoteStreams_frame (VStr "meetings") (VStr "HIGH")
           (setRemoteShare (VObj 3) (new_MediaProperties (VStr "meetings") (VStr "HIGH")))
           A_remoteShare); discriminate.
Defined.

Lemma getVideoDeviceId_round_trip_witness :
  truthy (VStr "camera-1") = true
  /\ getVideoDeviceId
       (setVideoDeviceId (VStr "camera-1")
          (new_MediaProperties (VStr "meetings") (VStr "HIGH")))
     = VStr "camera-1".
Proof.
  split; [reflexivity |].
  apply (getVideoDeviceId_round_trip
           (new_MediaProperties (VStr "meetings") (VStr "HIGH"))).
  reflexivity.
Defined.

Lemma hasLocalShareStream_setters_witness :
  truthy (VObj 4) = true
  /\ hasLocalShareStream
       (setLocalShareVideoStream (VObj 4)
          (new_MediaProperties (VStr "meetings") (VStr "HIGH")))
     = true.
Proof.
  split; [reflexivity |].
  apply (hasLocalShareStream_setters
           (new_MediaProperties (VStr "meetings") (VStr "HIGH"))).
  reflexivity.
Defined.

Lemma connectionType_of_relevant_witness :
  (forall r, In r (firstn 1 sample_reports) -> type r <> "local-candidate")
  /\ connectionType_of (firstn 1 sample_reports) = "unknown".
Proof.
  assert (H : forall r, In r (firstn 1 sample_reports) ->
                        type r <> "local-candidate").
  { intros r [<- | []]. discriminate. }
  split; [exact H |].
  apply (connectionType_of_relevant (firstn 1 sample_reports)). exact H.
Defined.

Lemma callbacks_keep_instance_witness :
  let w := sample_world (VStr "meetings") (VStr "HIGH") Connecting (StatsResolves []) in
  Forall not_setter [Wait; StateChanged 7 Connected; Elapse 9000]
  /\ this (run 8000 [Wait; StateChanged 7 Connected; Elapse 9000] w) = this w.
Proof.
  intros w.
  assert (H : Forall not_setter [Wait; StateChanged 7 Connected; Elapse 9000])
    by (repeat (apply Forall_cons_2; [exact I |]); apply Forall_nil_2).
  split; [exact H |].
  apply (callbacks_keep_instance 8000 _ w H).
Defined.

Lemma getCurrentConnectionType_without_connection_witness :
  let w := with_this (new_MediaProperties (VStr "meetings") (VStr "HIGH"))
             (sample_world (VStr "meetings") (VStr "HIGH") Connected
                (StatsResolves sample_reports)) in
  without_connection w
  /\ getCurrentConnectionType 8000 w = (Settled (Throw TypeError), w).
Proof.
  intros w.
  assert (H : without_connection w) by (intros h c Hh; discriminate Hh).
  split; [exact H |].
  apply (getCurrentConnectionType_without_connection 8000 w H).
Defined.

Lemma getCurrentConnectionType_timeout_witness :
  let w := sample_world (VStr "meetings") (VStr "HIGH") Connecting
             (StatsResolves sample_reports) in
  webrtcMediaConnection (this w) = VObj 7
  /\ connections w !! 7%nat
     = Some (sample_connection Connecting (StatsResolves sample_reports))
  /\ connectionState (sample_connection Connecting (StatsResolves sample_reports))
     <> Connected
  /\ exists (p : nat) (w' : World),
       getCurrentConnectionType 8000 w = (Awaiting p, w')
       /\ getCurrentConnectionType_resume p (run 8000 ([] ++ [Elapse 8000]) w')
          = (Settled (Throw (Thrown VUndefined)), run 8000 ([] ++ [Elapse 8000]) w').
Proof.
  intros w.
  assert (Hconn : webrtcMediaConnection (this w) = VObj 7) by reflexivity.
  assert (Hc : connections w !! 7%nat
               = Some (sample_connection Connecting (StatsResolves sample_reports)))
    by reflexivity.
  assert (Hs : connectionState
                 (sample_connection Connecting (StatsResolves sample_reports))
               <> Connected) by discriminate.
  split; [exact Hconn |]. split; [exact Hc |]. split; [exact Hs |].
  destruct (getCurrentConnectionType_timeout 8000 w 7
              (sample_connection Connecting (StatsResolves sample_reports))
              Hconn Hc Hs) as (p & w' & Hcall & Hlate).
  exists p, w'. split; [exact Hcall |].
  apply (Hlate [] 8000%N); [apply Forall_nil_2 | exact I | simpl; lia].
Defined.

Lemma getCurrentConnectionType_after_wait_witness :
  let w := sample_world (VStr "meetings") (VStr "HIGH") Connecting
             (StatsResolves sample_reports) in
  webrtcMediaConnection (this w) = VObj 7
  /\ connections w !! 7%nat
     = Some (sample_connection Connecting (StatsResolves sample_reports))
  /\ connectionState (sample_connection Connecting (StatsResolves sample_reports))
     <> Connected
  /\ exists (p : nat) (w' : World),
       getCurrentConnectionType 8000 w = (Awaiting p, w')
       /\ fst (getCurrentConnectionType_resume p
                 (run 8000 ([Elapse 5000] ++ [StateChanged 7 Connected]) w'))
          = Settled (Normal (connectionType_of sample_reports)).
Proof.
  intros w.
  assert (Hconn : webrtcMediaConnection (this w) = VObj 7) by reflexivity.
  assert (Hc : connections w !! 7%nat
               = Some (sample_connection Connecting (StatsResolves sample_reports)))
    by reflexivity.
  assert (Hs : connectionState
                 (sample_connection Connecting (StatsResolves sample_reports))
               <> Connected) by discriminate.
  split; [exact Hconn |]. split; [exact Hc |]. split; [exact Hs |].
  destruct (getCurrentConnectionType_after_wait 8000 w 7
              (sample_connection Connecting (StatsResolves sample_reports))
              Hconn Hc Hs) as (p & w' & Hcall & Hthen).
  exists p, w'. split; [exact Hcall |].
  apply (Hthen [Elapse 5000]).
  - apply Forall_cons_2; [exact I | apply Forall_nil_2].
  - simpl. split; [lia | exact I].
Defined.

Lemma two_waits_witness :
  let w := sample_world (VStr "meetings") (VStr "HIGH") Connecting (StatsResolves []) in
  webrtcMediaConnection (this w) = VObj 7
  /\ connections w !! 7%nat = Some (sample_connection Connecting (StatsResolves []))
  /\ connectionState (sample_connection Connecting (StatsResolves [])) <> Connected
  /\ exists (p1 p2 : nat) (w1 w2 : World),
       waitForMediaConnectionConnected 8000 w = (Normal p1, w1)
       /\ waitForMediaConnectionConnected 8000 w1 = (Normal p2, w2)
       /\ p1 <> p2.
Proof.
  intros w.
  assert (Hconn : webrtcMediaConnection (this w) = VObj 7) by reflexivity.
  assert (Hc : connections w !! 7%nat
               = Some (sample_connection Connecting (StatsResolves [])))
    by reflexivity.
  assert (Hs : connectionState (sample_connection Connecting (StatsResolves []))
               <> Connected) by discriminate.
  split; [exact Hconn |]. split; [exact Hc |]. split; [exact Hs |].
  destruct (two_waits 8000 w 7 (sample_connection Connecting (StatsResolves []))
              Hconn Hc Hs) as (p1 & p2 & w1 & w2 & H1 & H2 & Hne & _).
  exists p1, p2, w1, w2. repeat split; assumption.
Defined.

Lemma wait_settles_once_witness :
  let w := sample_world (VStr "meetings") (VStr "HIGH") Connecting (StatsResolves []) in
  webrtcMediaConnection (this w) = VObj 7
  /\ connections w !! 7%nat = Some (sample_connection Connecting (StatsResolves []))
  /\ connectionState (sample_connection Connecting (StatsResolves [])) <> Connected
  /\ exists (p : nat) (w' : World),
       waitForMediaConnectionConnected 8000 w = (Normal p, w')
       /\ promises
            (run 8000 ([] ++ [StateChanged 7 Connected] ++ [Elapse 9000]) w') !! p
          = Some Fulfilled.
Proof.
  intros w.
  assert (Hconn : webrtcMediaConnection (this w) = VObj 7) by reflexivity.
  assert (Hc : connections w !! 7%nat
               = Some (sample_connection Connecting (StatsResolves [])))
    by reflexivity.
  assert (Hs : connectionState (sample_connection Connecting (StatsResolves []))
               <> Connected) by discriminate.
  split; [exact Hconn |]. split; [exact Hc |]. split; [exact Hs |].
  destruct (wait_settles_once 8000 w 7
              (sample_connection Connecting (StatsResolves [])) Hconn Hc Hs)
    as (p & w' & Hwait & Hful & _).
  exists p, w'. split; [exact Hwait |].
  apply (Hful [] [Elapse 9000]).
  - apply Forall_nil_2.
  - exact I.
  - apply Forall_cons_2; [exact I | apply Forall_nil_2].
Defined.

Lemma wait_hangs_after_unset_witness :
  let w := sample_world (VStr "meetings") (VStr "HIGH") Connecting (StatsResolves []) in
  webrtcMediaConnection (this w) = VObj 7
  /\ connections w !! 7%nat = Some (sample_connection Connecting (StatsResolves []))
  /\ connectionState (sample_connection Connecting (StatsResolves [])) <> Connected
  /\ exists (p : nat) (w' : World),
       waitForMediaConnectionConnected 8000 w = (Normal p, w')
       /\ promises
            (run 8000
               ([] ++ [Setter Call_unsetPeerConnection]
                ++ [Elapse 9000; StateChanged 7 Connected]) w') !! p
          = Some Pending.
Proof.
  intros w.
  assert (Hconn : webrtcMediaConnection (this w) = VObj 7) by reflexivity.
  assert (Hc : connections w !! 7%nat
               = Some (sample_connection Connecting (StatsResolves [])))
    by reflexivity.
  assert (Hs : connectionState (sample_connection Connecting (StatsResolves []))
               <> Connected) by discriminate.
  split; [exact Hconn |]. split; [exact Hc |]. split; [exact Hs |].
  destruct (wait_hangs_after_unset 8000 w 7
              (sample_connection Connecting (StatsResolves [])) Hconn Hc Hs)
    as (p & w' & Hwait & Hhang).
  exists p, w'. split; [exact Hwait |].
  apply (Hhang [] [Elapse 9000; StateChanged 7 Connected]).
  - apply Forall_nil_2.
  - exact I.
  - repeat (apply Forall_cons_2; [exact I |]). apply Forall_nil_2.
Defined.

Lemma listener_left_on_replaced_connection_witness :
  let w :=
    with_connections
      (<[8%nat := sample_connection New (StatsResolves [])]>
         (connections
            (sample_world (VStr "meetings") (VStr "HIGH") Connecting (StatsResolves []))))
      (sample_world (VStr "meetings") (VStr "HIGH") Connecting (StatsResolves [])) in
  webrtcMediaConnection (this w) = VObj 7
  /\ connections w !! 7%nat = Some (sample_connection Connecting (StatsResolves []))
  /\ connectionState (sample_connection Connecting (StatsResolves [])) <> Connected
  /\ 8%nat <> 7%nat
  /\ connections w !! 8%nat = Some (sample_connection New (StatsResolves []))
  /\ exists (p : nat) (w' : World),
       waitForMediaConnectionConnected 8000 w = (Normal p, w')
       /\ exists c'' : MediaConnection,
            connections
              (run 8000
                 ([] ++ [Setter (Call_setMediaPeerConnection (VObj 8)); Elapse 8000])
                 w') !! 7%nat = Some c''
            /\ (CONNECTION_STATE_CHANGED, p) ∈ listeners c''.
Proof.
  intros w.
  assert (Hconn : webrtcMediaConnection (this w) = VObj 7) by reflexivity.
  assert (Hc : connections w !! 7%nat
               = Some (sample_connection Connecting (StatsResolves [])))
    by reflexivity.
  assert (Hs : connectionState (sample_connection Connecting (StatsResolves []))
               <> Connected) by discriminate.
  assert (Hne : 8%nat <> 7%nat) by discriminate.
  assert (Hc2 : connections w !! 8%nat
                = Some (sample_connection New (StatsResolves [])))
    by reflexivity.
  split; [exact Hconn |]. split; [exact Hc |]. split; [exact Hs |].
  split; [exact Hne |]. split; [exact Hc2 |].
  destruct (listener_left_on_replaced_connection 8000 w 7 8
              (sample_connection Connecting (StatsResolves []))
              (sample_connection New (StatsResolves [])) Hconn Hc Hs Hne Hc2)
    as (p & w' & Hwait & Hleft).
  exists p, w'. split; [exact Hwait |].
  apply (Hleft [] 8000%N); [apply Forall_nil_2 | exact I | simpl; lia].
Defined.


(** C2 as it is stated, for every run in which the connection does not
    become connected, fails: on the sample world with the connection
    connecting, the application calls unsetPeerConnection during the wait;
    when PC_BAIL_TIMEOUT has passed the timer callback throws on the null
    connection before it rejects, so the promise is not rejected. *)
Lemma wait_is_bounded_counterexample :
  ~ (forall (p : nat) (w' : World),
       waitForMediaConnectionConnected 8000
         (sample_world (VStr "meetings") (VStr "HIGH") Connecting (StatsResolves []))
       = (Normal p, w') ->
       forall (tr : list HostEvent) (d : N),
         Forall (never_connected 7) tr ->
         in_time (Z.max 0 8000) tr ->
         Z.max 0 8000 <= elapsed tr + Z.of_N d ->
         promises (run 8000 (tr ++ [Elapse d]) w') !! p
         = Some (Rejected (Thrown VUndefined))
         /\ forall c'' : MediaConnection,
              connections (run 8000 (tr ++ [Elapse d]) w') !! 7%nat = Some c'' ->
              (CONNECTION_STATE_CHANGED, p) ∉ listeners c'').
Proof.
  intros Hclaim.
  destruct (Hclaim 0%nat _ eq_refl [Setter Call_unsetPeerConnection] 8000%N)
    as [Hrejected _].
  - apply Forall_cons_2; [exact I | apply Forall_nil_2].
  - exact I.
  - simpl. lia.
  - vm_compute in Hrejected. discriminate Hrejected.
Qed.
